(** * nmap_builder: the command assembler, the step sequence and the history store

    A shallow embedding of [src/nmap_builder.py] (class [NmapBuilder]).

    - Python strings are [string]; [str.strip], [str.split], [str.isdigit],
      [int] and [str.join] are written out below for ASCII input.
    - The operator's terminal is the list of lines still to be typed; a call
      of [input] takes the first one and raises [EOFError] on an empty list.
    - The history file is absent, unreadable, or a list of entries as the
      program writes them; JSON of another shape, time stamps the program
      did not write and interrupts by the operator are not part of the
      model.
    - [print] only writes to the terminal and is left out; the history view
      is kept as a value ([history_view]) because the selection of an
      entry refers to its numbers.
    - The builder object is the record [Builder]: the [command_parts]
      dictionary, the history file, what the world allows (making the
      history directory and writing the file, writing scripts, the
      clipboard), the clock and a log of the outward effects (child
      processes, files written, clipboard). *)

From Stdlib Require Import String Ascii List ZArith Lia Bool Arith.
From Stdlib Require Import DecimalString Permutation.
Import ListNotations.
Open Scope string_scope.
Open Scope list_scope.
Open Scope nat_scope.

Set Implicit Arguments.

(** ** Python string primitives *)

(** [str.isspace] on one ASCII character: tab .. carriage return, the four
    separators 28 .. 31 and the blank. *)
Definition is_space (c : ascii) : bool :=
  let n := nat_of_ascii c in
  ((9 <=? n) && (n <=? 13)) || ((28 <=? n) && (n <=? 31)) || (n =? 32).

Definition is_digit (c : ascii) : bool :=
  let n := nat_of_ascii c in (48 <=? n) && (n <=? 57).

Definition digit_value (c : ascii) : Z := Z.of_nat (nat_of_ascii c - 48).

Fixpoint lstrip_chars (l : list ascii) : list ascii :=
  match l with
  | c :: r => if is_space c then lstrip_chars r else l
  | [] => []
  end.

Definition rstrip_chars (l : list ascii) : list ascii :=
  rev (lstrip_chars (rev l)).

(** [s.strip()] *)
Definition strip (s : string) : string :=
  string_of_list_ascii (rstrip_chars (lstrip_chars (list_ascii_of_string s))).

(** A Python string is true when it is not empty. *)
Definition truthy (s : string) : bool :=
  match s with EmptyString => false | String _ _ => true end.

(** [s.split(sep)] for a one-character separator: empty fields are kept. *)
Fixpoint split_on_chars (sep : ascii) (cur : list ascii) (l : list ascii)
  : list string :=
  match l with
  | [] => [string_of_list_ascii (rev cur)]
  | c :: r =>
      if Ascii.eqb c sep
      then string_of_list_ascii (rev cur) :: split_on_chars sep [] r
      else split_on_chars sep (c :: cur) r
  end.

Definition split_on (sep : ascii) (s : string) : list string :=
  split_on_chars sep [] (list_ascii_of_string s).

(** [s.split()]: runs of white space separate, empty fields are dropped. *)
Fixpoint split_ws_chars (cur : list ascii) (l : list ascii) : list string :=
  match l with
  | [] => match cur with
          | [] => []
          | _ => [string_of_list_ascii (rev cur)]
          end
  | c :: r =>
      if is_space c
      then match cur with
           | [] => split_ws_chars [] r
           | _ => string_of_list_ascii (rev cur) :: split_ws_chars [] r
           end
      else split_ws_chars (c :: cur) r
  end.

Definition split_ws (s : string) : list string :=
  split_ws_chars [] (list_ascii_of_string s).

(** [sep.join(parts)] *)
Definition join (sep : string) (parts : list string) : string :=
  String.concat sep parts.

(** [s.startswith(p)] and [s.endswith(p)] *)
Definition startswith (p s : string) : bool := String.prefix p s.

Definition endswith (p s : string) : bool :=
  let n := String.length s in
  let k := String.length p in
  (k <=? n) && String.eqb (String.substring (n - k) k s) p.

(** [s.isdigit()]: not empty, and every character a digit. *)
Definition isdigit (s : string) : bool :=
  truthy s && forallb is_digit (list_ascii_of_string s).

(** The digits of an integer literal: single underscores may separate
    digits, nothing else may appear. [seen] tells that the previous
    character was a digit. *)
Fixpoint digits_value (acc : Z) (seen : bool) (l : list ascii) : option Z :=
  match l with
  | [] => if seen then Some acc else None
  | c :: r =>
      if is_digit c then digits_value (acc * 10 + digit_value c)%Z true r
      else if Ascii.eqb c "_"%char && seen then digits_value acc false r
      else None
  end.

(** The default of [sys.get_int_max_str_digits()]. *)
Definition max_str_digits : Z := 4300.

(** The number of digits of a literal, underscores and sign left out. *)
Definition count_digits (l : list ascii) : Z :=
  Z.of_nat (length (filter is_digit l)).

(** [int(s)] in base ten; [None] stands for [ValueError], which is also
    raised for a literal of more than [max_str_digits] digits. *)
Definition py_int (s : string) : option Z :=
  let l := list_ascii_of_string (strip s) in
  if (max_str_digits <? count_digits l)%Z then None
  else
    match l with
    | "-"%char :: r => option_map Z.opp (digits_value 0 false r)
    | "+"%char :: r => digits_value 0 false r
    | _ => digits_value 0 false l
    end.

(** [str(n)] for an integer of at most [max_str_digits] digits, as all
    the integers are that the program prints. *)
Definition py_str (n : Z) : string := NilZero.string_of_int (Z.to_int n).

(** [s.ljust(w)] as used by the format [{part:15}]. *)
Fixpoint spaces (n : nat) : string :=
  match n with O => "" | S k => String " " (spaces k) end.

Definition ljust (w : nat) (s : string) : string :=
  (s ++ spaces (w - String.length s))%string.

(** ** Python sequences *)

(** [l[-k:]] for a positive [k]: the last [k] elements, all of [l] when it
    is shorter. *)
Definition last_slice {A} (k : nat) (l : list A) : list A :=
  skipn (length l - k) l.

(** [l[i]] for any integer [i]: negative indices count from the end and
    [None] stands for [IndexError]. *)
Definition py_index {A} (l : list A) (i : Z) : option A :=
  let n := Z.of_nat (length l) in
  if (i <? 0)%Z
  then if (0 <=? n + i)%Z then nth_error l (Z.to_nat (n + i)) else None
  else nth_error l (Z.to_nat i).

(** [enumerate(l, start)] *)
Fixpoint enumerate {A} (start : Z) (l : list A) : list (Z * A) :=
  match l with
  | [] => []
  | x :: r => (start, x) :: enumerate (start + 1) r
  end.

(** A dictionary literal in source order; [d.get(k)] / [k in d]. *)
Fixpoint lookup {A} (k : string) (d : list (string * A)) : option A :=
  match d with
  | [] => None
  | (k', v) :: r => if String.eqb k k' then Some v else lookup k r
  end.


(** [s.lower()] on ASCII letters. *)
Definition lower_char (c : ascii) : ascii :=
  let n := nat_of_ascii c in
  if (65 <=? n) && (n <=? 90) then ascii_of_nat (n + 32) else c.

Definition lower (s : string) : string :=
  string_of_list_ascii (map lower_char (list_ascii_of_string s)).

(** [pattern.format(target=t)] for a pattern whose only replacement field is
    the placeholder written [{target}]; [skip] counts the characters of a
    placeholder still to be passed over. *)
Fixpoint format_from (skip : nat) (target : string) (pattern : string)
  : string :=
  match pattern with
  | EmptyString => EmptyString
  | String c r =>
      match skip with
      | S k => format_from k target r
      | O =>
          if String.prefix "{target}" pattern
          then (target ++ format_from 7 target r)%string
          else String c (format_from 0 target r)
      end
  end.

Definition format_target (pattern target : string) : string :=
  format_from 0 target pattern.

(** ** The option catalogs of [__init__] *)

Record OptionDescriptor := Opt
  { name : string; flag : string; description : string }.

Record OutputFormat := Fmt
  { fmt_name : string; fmt_flag : string; ext : string }.

Definition scan_types : list (string * OptionDescriptor) :=
  [ ("1", Opt "TCP SYN Scan" "-sS" "Half-open scan, stealthy and fast");
    ("2", Opt "TCP Connect Scan" "-sT" "Full TCP connection, works without root");
    ("3", Opt "UDP Scan" "-sU" "Scan UDP ports (slower)");
    ("4", Opt "TCP ACK Scan" "-sA" "Firewall rule detection");
    ("5", Opt "TCP Window Scan" "-sW" "Window size exploitation");
    ("6", Opt "TCP Maimon Scan" "-sM" "FIN/ACK probe");
    ("7", Opt "TCP Null Scan" "-sN" "No flags set (stealth)");
    ("8", Opt "TCP FIN Scan" "-sF" "FIN flag only (stealth)");
    ("9", Opt "TCP Xmas Scan" "-sX" "FIN, PSH, URG flags (stealth)");
    ("10", Opt "Ping Scan" "-sn" "Host discovery only");
    ("11", Opt "List Scan" "-sL" "List targets without scanning");
    ("12", Opt "Version Detection" "-sV" "Service version detection") ].

Definition timing_templates : list (string * OptionDescriptor) :=
  [ ("0", Opt "Paranoid" "-T0" "Very slow, IDS evasion");
    ("1", Opt "Sneaky" "-T1" "Slow, IDS evasion");
    ("2", Opt "Polite" "-T2" "Slow, less bandwidth");
    ("3", Opt "Normal" "-T3" "Default timing");
    ("4", Opt "Aggressive" "-T4" "Fast, assume fast network");
    ("5", Opt "Insane" "-T5" "Very fast, may miss results") ].

Definition output_formats : list (string * OutputFormat) :=
  [ ("1", Fmt "Normal Output" "-oN" ".nmap");
    ("2", Fmt "XML Output" "-oX" ".xml");
    ("3", Fmt "Greppable Output" "-oG" ".gnmap");
    ("4", Fmt "All Formats" "-oA" "");
    ("5", Fmt "Script Kiddie" "-oS" ".skid") ].

Definition detection_options : list (string * OptionDescriptor) :=
  [ ("1", Opt "Service Version Detection" "-sV" "Detect service versions");
    ("2", Opt "OS Detection" "-O" "Enable OS detection");
    ("3", Opt "Script Scan (Default)" "-sC" "Run default NSE scripts");
    ("4", Opt "Script Scan (All)" "--script=all" "Run all NSE scripts");
    ("5", Opt "Script Scan (Vuln)" "--script=vuln" "Run vulnerability scripts");
    ("6", Opt "Script Scan (Auth)" "--script=auth" "Run authentication scripts");
    ("7", Opt "Script Scan (Discovery)" "--script=discovery" "Run discovery scripts");
    ("8", Opt "Aggressive Scan" "-A"
            "Enable OS detection, version detection, script scanning");
    ("9", Opt "Custom Script" "--script=" "Specify custom NSE script") ].

(** The local dictionary of [get_port_specification]. *)
Definition port_options : list (string * OptionDescriptor) :=
  [ ("1", Opt "Default NMAP ports" "" "NMAP default port selection (~1000 ports)");
    ("2", Opt "Fast scan" "-F" "Top 100 most common ports");
    ("3", Opt "All ports" "-p-" "All 65535 ports (very slow)");
    ("4", Opt "Top 100 ports" "--top-ports 100" "Most common 100 ports");
    ("5", Opt "Top 1000 ports" "--top-ports 1000" "Most common 1000 ports");
    ("6", Opt "Well-known ports" "-p 1-1023" "System/well-known ports (1-1023)");
    ("7", Opt "Common web ports" "-p 80,443,8080,8443,8000,8888"
            "HTTP/HTTPS and common web ports");
    ("8", Opt "Common service ports" "-p 21,22,23,25,53,80,110,143,443,993,995"
            "FTP, SSH, Telnet, SMTP, DNS, HTTP, POP, IMAP, HTTPS");
    ("9", Opt "Database ports" "-p 1433,1521,3306,5432,27017"
            "MSSQL, Oracle, MySQL, PostgreSQL, MongoDB");
    ("10", Opt "Remote access ports" "-p 22,23,3389,5900,5901,5902"
             "SSH, Telnet, RDP, VNC");
    ("11", Opt "Custom port range" "custom_range" "Specify your own port range");
    ("12", Opt "Custom port list" "custom_list" "Specify individual ports");
    ("13", Opt "Single port" "custom_single" "Specify a single port") ].

(** The local dictionary of [quick_templates]: name, command pattern and
    description. *)
Definition templates : list (string * OptionDescriptor) :=
  [ ("1", Opt "Quick Host Discovery" "nmap -sn {target}"
            "Fast ping scan to discover live hosts");
    ("2", Opt "Fast TCP Scan" "nmap -F {target}"
            "Scan top 100 most common ports");
    ("3", Opt "Comprehensive Scan" "nmap -sS -sV -O -A {target}"
            "SYN scan with version and OS detection");
    ("4", Opt "Stealth Scan" "nmap -sS -T1 -f {target}"
            "Slow, fragmented SYN scan for IDS evasion");
    ("5", Opt "UDP Service Scan" "nmap -sU --top-ports 20 {target}"
            "Scan top 20 UDP ports");
    ("6", Opt "Vulnerability Scan" "nmap -sV --script=vuln {target}"
            "Version detection with vulnerability scripts");
    ("7", Opt "Web Server Scan" "nmap -p 80,443 -sV --script=http-* {target}"
            "Focus on web services with HTTP scripts");
    ("8", Opt "Full Port Scan" "nmap -p- -T4 {target}"
            "Scan all 65535 ports (aggressive timing)") ].

(** In [templates] the second field of a descriptor is the ['command']
    pattern. *)
Definition command_pattern (t : OptionDescriptor) : string := flag t.

(** ** The builder and its world *)

(** [self.command_parts] *)
Record CommandParts := Parts
  { scan_type : string;
    target : string;
    ports : string;
    timing : string;
    detection : string;
    output : string;
    misc_options : list string }.

Definition empty_parts : CommandParts := Parts "" "" "" "" "" "" [].

(** One object of the JSON array in [command_history.json]. *)
Record HistoryEntry := Entry
  { timestamp : string; command : string; entry_target : string }.

(** The history file: absent, unreadable for [json.load], or a list. *)
Inductive FileState :=
| Missing
| Corrupt
| Stored (history : list HistoryEntry).

(** What the session does to the outside, in order. *)
Inductive Effect :=
| HistoryWritten (history : list HistoryEntry)
| Executed (argv : list string)
| ScriptSaved (script_name script_content : string)
| Copied (text : string).

(** [datetime.now()]: the reading of the [n]-th call, in the three formats
    the program prints it in. *)
Record Clock := MkClock
  { isoformat : nat -> string;
    stamp : nat -> string;
    long_date : nat -> string }.

(** Where the history is kept: the directory can be made (or is there)
    and the file can be written; the directory is there but the file
    cannot be opened for writing; or [mkdir] itself fails. *)
Inductive Storage :=
| Writable
| ReadOnly
| NoDirectory.

(** The clipboard module: it cannot be imported, it works, or [copy]
    raises its own exception (no copy mechanism on the system). *)
Inductive Clipboard :=
| NotInstalled
| ClipboardWorks
| ClipboardFails.

Record Builder := MkBuilder
  { command_parts : CommandParts;
    history_file : FileState;
    storage : Storage;
    clipboard : Clipboard;
    scripts_writable : bool;
    ticks : nat;
    effects : list Effect }.

(** The history file can be written. *)
Definition history_writable (b : Builder) : bool :=
  match storage b with
  | Writable => true
  | ReadOnly | NoDirectory => false
  end.

(** [NmapBuilder()] in a given world: whether the history file can be
    written (its directory being there) and whether the clipboard module
    is installed (and then works); scripts can be written. *)
Definition new_builder (file : FileState) (writable clip : bool) : Builder :=
  MkBuilder empty_parts file
            (if writable then Writable else ReadOnly)
            (if clip then ClipboardWorks else NotInstalled)
            true 0 [].

Definition with_parts (cp : CommandParts) (b : Builder) : Builder :=
  MkBuilder cp (history_file b) (storage b) (clipboard b)
            (scripts_writable b) (ticks b) (effects b).

Definition with_history_file (f : FileState) (b : Builder) : Builder :=
  MkBuilder (command_parts b) f (storage b) (clipboard b)
            (scripts_writable b) (ticks b) (effects b).

Definition tick (b : Builder) : Builder :=
  MkBuilder (command_parts b) (history_file b) (storage b) (clipboard b)
            (scripts_writable b) (S (ticks b)) (effects b).

Definition emit (e : Effect) (b : Builder) : Builder :=
  MkBuilder (command_parts b) (history_file b) (storage b) (clipboard b)
            (scripts_writable b) (ticks b) (effects b ++ [e]).

(** The assignments [self.command_parts[key] = value]. *)
Definition set_scan_type (v : string) (cp : CommandParts) : CommandParts :=
  Parts v (target cp) (ports cp) (timing cp) (detection cp) (output cp)
        (misc_options cp).
Definition set_target (v : string) (cp : CommandParts) : CommandParts :=
  Parts (scan_type cp) v (ports cp) (timing cp) (detection cp) (output cp)
        (misc_options cp).
Definition set_ports (v : string) (cp : CommandParts) : CommandParts :=
  Parts (scan_type cp) (target cp) v (timing cp) (detection cp) (output cp)
        (misc_options cp).
Definition set_timing (v : string) (cp : CommandParts) : CommandParts :=
  Parts (scan_type cp) (target cp) (ports cp) v (detection cp) (output cp)
        (misc_options cp).
Definition set_detection (v : string) (cp : CommandParts) : CommandParts :=
  Parts (scan_type cp) (target cp) (ports cp) (timing cp) v (output cp)
        (misc_options cp).
Definition set_output (v : string) (cp : CommandParts) : CommandParts :=
  Parts (scan_type cp) (target cp) (ports cp) (timing cp) (detection cp) v
        (misc_options cp).
Definition set_misc_options (v : list string) (cp : CommandParts)
  : CommandParts :=
  Parts (scan_type cp) (target cp) (ports cp) (timing cp) (detection cp)
        (output cp) v.

(** ** Calls: outcomes, the terminal and the builder *)

Inductive exn :=
| EOFError
| IndexError
| ValueError
| OSError
| PyperclipException
| SystemExit (code : Z).

(** A call returns, raises, or is still running when the fuel of a menu
    loop is used up ([Pending]). *)
Inductive Outcome (A : Type) :=
| Returned (a : A)
| Raised (e : exn)
| Pending.
Arguments Raised {A} e.
Arguments Pending {A}.

Definition Run (A : Type) : Type := Outcome A * Builder * list string.

(** A method: from the lines still to be typed and the builder to an
    outcome, the builder afterwards and the lines left. *)
Definition M (A : Type) : Type := list string -> Builder -> Run A.

Definition ret {A} (a : A) : M A := fun inp b => (Returned a, b, inp).

Definition raise {A} (e : exn) : M A := fun inp b => (Raised e, b, inp).

Definition bind {A B} (m : M A) (k : A -> M B) : M B :=
  fun inp b =>
    match m inp b with
    | (Returned a, b', inp') => k a inp' b'
    | (Raised e, b', inp') => (Raised e, b', inp')
    | (Pending, b', inp') => (Pending, b', inp')
    end.

Notation "x <- m ;; k" := (bind m (fun x => k))
  (at level 61, m at next level, right associativity).
Notation "m ;;; k" := (bind m (fun _ => k))
  (at level 61, right associativity).

(** [input(prompt)] *)
Definition input : M string :=
  fun inp b =>
    match inp with
    | [] => (Raised EOFError, b, [])
    | line :: rest => (Returned line, b, rest)
    end.

Definition get_parts : M CommandParts :=
  fun inp b => (Returned (command_parts b), b, inp).

Definition update_parts (f : CommandParts -> CommandParts) : M unit :=
  fun inp b => (Returned tt, with_parts (f (command_parts b)) b, inp).

Definition perform (e : Effect) : M unit :=
  fun inp b => (Returned tt, emit e b, inp).

(** [datetime.now()]: the number of the reading. *)
Definition now : M nat :=
  fun inp b => (Returned (ticks b), tick b, inp).

(** ** The seven steps *)

(** [get_scan_type]: [while True] around one [input]. *)
Fixpoint get_scan_type (inp : list string) (b : Builder) {struct inp}
  : Run unit :=
  match inp with
  | [] => (Raised EOFError, b, [])
  | line :: rest =>
      let choice := strip line in
      match lookup choice scan_types with
      | Some selected =>
          (Returned tt,
           with_parts (set_scan_type (flag selected) (command_parts b)) b,
           rest)
      | None => get_scan_type rest b
      end
  end.

(** [get_target] *)
Fixpoint get_target (inp : list string) (b : Builder) {struct inp}
  : Run unit :=
  match inp with
  | [] => (Raised EOFError, b, [])
  | line :: rest =>
      let target := strip line in
      if truthy target
      then (Returned tt, with_parts (set_target target (command_parts b)) b,
            rest)
      else get_target rest b
  end.

(** The test [1 <= p <= 65535]. *)
Definition valid_port (p : Z) : bool := ((1 <=? p) && (p <=? 65535))%Z.

(** The loop of the ['custom_range'] branch: two lines per round. *)
Fixpoint custom_range (inp : list string) (b : Builder) {struct inp}
  : Run unit :=
  match inp with
  | line1 :: line2 :: rest =>
      let start_port := strip line1 in
      let end_port := strip line2 in
      match py_int start_port, py_int end_port with
      | Some start, Some stop =>
          if valid_port start && valid_port stop && (start <=? stop)%Z
          then
            let ports_flag :=
              ("-p " ++ py_str start ++ "-" ++ py_str stop)%string in
            (Returned tt,
             with_parts (set_ports ports_flag (command_parts b)) b, rest)
          else custom_range rest b
      | _, _ => custom_range rest b
      end
  | _ => (Raised EOFError, b, [])
  end.

(** [[int(p.strip()) for p in port_list.split(',')]]; [None] when one of
    them raises [ValueError]. *)
Fixpoint int_all (l : list string) : option (list Z) :=
  match l with
  | [] => Some []
  | p :: r =>
      match py_int (strip p), int_all r with
      | Some n, Some ns => Some (n :: ns)
      | _, _ => None
      end
  end.

(** The loop of the ['custom_list'] branch. *)
Fixpoint custom_list (inp : list string) (b : Builder) {struct inp}
  : Run unit :=
  match inp with
  | [] => (Raised EOFError, b, [])
  | line :: rest =>
      let port_list := strip line in
      if truthy port_list
      then
        match int_all (split_on "," port_list) with
        | Some ports =>
            if forallb valid_port ports
            then
              let ports_flag := ("-p " ++ port_list)%string in
              (Returned tt,
               with_parts (set_ports ports_flag (command_parts b)) b, rest)
            else custom_list rest b
        | None => custom_list rest b
        end
      else custom_list rest b
  end.

(** The loop of the ['custom_single'] branch. *)
Fixpoint custom_single (inp : list string) (b : Builder) {struct inp}
  : Run unit :=
  match inp with
  | [] => (Raised EOFError, b, [])
  | line :: rest =>
      let single_port := strip line in
      match py_int single_port with
      | Some port =>
          if valid_port port
          then
            let ports_flag := ("-p " ++ py_str port)%string in
            (Returned tt,
             with_parts (set_ports ports_flag (command_parts b)) b, rest)
          else custom_single rest b
      | None => custom_single rest b
      end
  end.

(** [get_port_specification]: the outer [while True]; the three custom
    branches never come back to it. *)
Fixpoint get_port_specification (inp : list string) (b : Builder)
  {struct inp} : Run unit :=
  match inp with
  | [] => (Raised EOFError, b, [])
  | line :: rest =>
      let choice := strip line in
      match lookup choice port_options with
      | Some selected =>
          if String.eqb (flag selected) "custom_range"
          then custom_range rest b
          else if String.eqb (flag selected) "custom_list"
          then custom_list rest b
          else if String.eqb (flag selected) "custom_single"
          then custom_single rest b
          else if truthy (flag selected)
          then (Returned tt,
                with_parts (set_ports (flag selected) (command_parts b)) b,
                rest)
          else (Returned tt, b, rest)
      | None => get_port_specification rest b
      end
  end.

(** [get_timing_template]: one question, no loop. *)
Definition get_timing_template : M unit :=
  line <- input ;;
  let choice := strip line in
  match lookup choice timing_templates with
  | Some selected => update_parts (set_timing (flag selected))
  | None => ret tt
  end.

(** The [for] loop of [get_detection_options] over the split choices. *)
Fixpoint detection_loop (choices : list string) (detection_flags : list string)
  {struct choices} : M (list string) :=
  match choices with
  | [] => ret detection_flags
  | c :: more =>
      let choice := strip c in
      match lookup choice detection_options with
      | Some d =>
          if String.eqb choice "9"
          then
            line <- input ;;
            let script_name := strip line in
            detection_loop more
              (detection_flags ++ [("--script=" ++ script_name)%string])
          else detection_loop more (detection_flags ++ [flag d])
      | None => detection_loop more detection_flags
      end
  end.

(** [get_detection_options] *)
Definition get_detection_options : M unit :=
  line <- input ;;
  let choices := strip line in
  if truthy choices
  then
    detection_flags <- detection_loop (split_on "," choices) [] ;;
    update_parts (set_detection (join " " detection_flags))
  else ret tt.

Section WithClock.

Variable clk : Clock.

(** [get_output_options] *)
Definition get_output_options : M unit :=
  line <- input ;;
  let choice := strip line in
  match lookup choice output_formats with
  | Some selected =>
      t <- now ;;
      let default_name := ("nmap_scan_" ++ stamp clk t)%string in
      line2 <- input ;;
      let filename :=
        if truthy (strip line2) then strip line2 else default_name in
      let output_flag :=
        if truthy (ext selected)
        then (fmt_flag selected ++ " " ++ filename ++ ext selected)%string
        else (fmt_flag selected ++ " " ++ filename)%string in
      update_parts (set_output output_flag)
  | None => ret tt
  end.

(** [get_misc_options] *)
Definition get_misc_options : M unit :=
  line <- input ;;
  let misc := strip line in
  if truthy misc
  then update_parts (set_misc_options (split_ws misc))
  else ret tt.

(** ** The command assembler *)

(** The list [cmd_parts] of [build_command] before it is joined. *)
Definition cmd_parts (cp : CommandParts) : list string :=
  ["nmap"]
  ++ (if truthy (scan_type cp) then [scan_type cp] else [])
  ++ (if truthy (ports cp) then [ports cp] else [])
  ++ (if truthy (timing cp) then [timing cp] else [])
  ++ (if truthy (detection cp) then split_ws (detection cp) else [])
  ++ (if truthy (output cp) then split_ws (output cp) else [])
  ++ (match misc_options cp with [] => [] | l => l end)
  ++ [target cp].

(** The string [build_command] returns for given [command_parts]. *)
Definition build_command (cp : CommandParts) : string :=
  join " " (cmd_parts cp).

(** The call [self.build_command()]. *)
Definition call_build_command : M string :=
  cp <- get_parts ;; ret (build_command cp).

(** ** Post-build actions *)

Definition nl : string := String (ascii_of_nat 10) EmptyString.

(** The comment lines [save_as_script] writes for the parts of a command,
    [i] being the index of the first of [parts] and [n] their number. *)
Fixpoint script_breakdown (i n : nat) (parts : list string) : string :=
  match parts with
  | [] => ""
  | part :: rest =>
      ((if String.eqb part "nmap"
        then "# " ++ ljust 15 part ++ " - Network exploration tool" ++ nl
        else if startswith "-" part
        then "# " ++ ljust 15 part ++ " - NMAP option" ++ nl
        else if (i =? n - 1)%nat
        then "# " ++ ljust 15 part ++ " - Target specification" ++ nl
        else "")
       ++ script_breakdown (S i) n rest)%string
  end.

Definition script_text (created : string) (command : string) : string :=
  let parts := split_ws command in
  ("#!/bin/bash" ++ nl
   ++ "# NMAP Scan Script" ++ nl
   ++ "# Generated by Interactive NMAP Command Builder" ++ nl
   ++ "# Author: Ross Durrer" ++ nl
   ++ "# Created: " ++ created ++ nl
   ++ "# " ++ nl
   ++ "# Command explanation:" ++ nl
   ++ script_breakdown 0 (length parts) parts
   ++ nl ++ "# Full command:" ++ nl ++ command ++ nl)%string.

(** The test [answer not in ['y', 'yes']], negated. *)
Definition says_yes (answer : string) : bool :=
  String.eqb answer "y" || String.eqb answer "yes".

(** [save_as_script]: the file is written and made executable; when it
    cannot be, the exception is caught, the error is printed and no file
    is there. *)
Definition save_as_script (command : string) : M unit :=
  line <- input ;;
  let save_choice := lower (strip line) in
  if says_yes save_choice
  then
    t <- now ;;
    let default_script := ("nmap_scan_" ++ stamp clk t ++ ".sh")%string in
    line2 <- input ;;
    let script_name :=
      if truthy (strip line2) then strip line2 else default_script in
    let script_name :=
      if endswith ".sh" script_name then script_name
      else (script_name ++ ".sh")%string in
    t2 <- now ;;
    let script_content := script_text (long_date clk t2) command in
    fun inp b =>
      if scripts_writable b
      then perform (ScriptSaved script_name script_content) inp b
      else ret tt inp b
  else ret tt.

(** [execute_command]: the child process gets the command split on white
    space; its failure or interruption is reported on the terminal. *)
Definition execute_command (command : string) : M unit :=
  line <- input ;;
  let execute_choice := lower (strip line) in
  if says_yes execute_choice
  then perform (Executed (split_ws command))
  else ret tt.

(** Option 3 of the menu: [pyperclip.copy]. Only [ImportError] is caught;
    an exception of [copy] itself leaves the menu. *)
Definition copy_to_clipboard (command : string) : M unit :=
  fun inp b =>
    match clipboard b with
    | ClipboardWorks => perform (Copied command) inp b
    | NotInstalled => ret tt inp b
    | ClipboardFails => raise PyperclipException inp b
    end.

(** ** The history store *)

(** The list [save_command_history] starts from: the file's content, or
    the empty list when the file is absent or cannot be read. *)
Definition load_history (f : FileState) : list HistoryEntry :=
  match f with
  | Stored history => history
  | Missing | Corrupt => []
  end.

(** [history.append(history_entry)] followed by [history[-50:]]. *)
Definition append_entry (history : list HistoryEntry) (e : HistoryEntry)
  : list HistoryEntry :=
  last_slice 50 (history ++ [e]).

(** [save_command_history]: [mkdir] comes first and is not guarded, so its
    failure leaves the method; when the file cannot be written a warning
    is printed and the file stays as it was. *)
Definition save_command_history (command : string) : M unit :=
  fun inp b =>
    match storage b with
    | NoDirectory => (Raised OSError, b, inp)
    | Writable | ReadOnly =>
        let history := load_history (history_file b) in
        let history_entry :=
          Entry (isoformat clk (ticks b)) command (target (command_parts b)) in
        let history := append_entry history history_entry in
        let b := tick b in
        if history_writable b
        then (Returned tt,
              emit (HistoryWritten history)
                   (with_history_file (Stored history) b),
              inp)
        else (Returned tt, b, inp)
    end.

(** The numbered lines of the history view: [enumerate(history[-10:], 1)]. *)
Definition history_view (history : list HistoryEntry)
  : list (Z * HistoryEntry) :=
  enumerate 1 (last_slice 10 history).

(** [show_command_history]. The call of [int] is not guarded: for digits
    that [int] does not read (more than [max_str_digits] of them) its
    [ValueError] leaves the method. *)
Definition show_command_history : M (option string) :=
  fun inp b =>
    match history_file b with
    | Missing | Corrupt => ret None inp b
    | Stored [] => ret None inp b
    | Stored history =>
        (line <- input ;;
         let choice := strip line in
         if isdigit choice
         then
           match py_int choice with
           | Some i =>
               if ((1 <=? i) && (i <=? Z.of_nat (min 10 (length history))))%Z
               then
                 match py_index history (- (11 - i))%Z with
                 | Some e => ret (Some (command e))
                 | None => raise IndexError
                 end
               else ret None
           | None => raise ValueError
           end
         else ret None) inp b
    end.

(** ** The session controller *)

Definition pending {A} : M A := fun inp b => (Pending, b, inp).

(** The [while True] of [process_built_command]; [fuel] bounds the number
    of rounds. *)
Fixpoint options_menu (fuel : nat) (command : string) {struct fuel} : M unit :=
  match fuel with
  | O => pending
  | S fuel' =>
      line <- input ;;
      let choice := strip line in
      if String.eqb choice "1"
      then execute_command command ;;; input ;;; options_menu fuel' command
      else if String.eqb choice "2"
      then save_as_script command ;;; input ;;; options_menu fuel' command
      else if String.eqb choice "3"
      then copy_to_clipboard command ;;; input ;;; options_menu fuel' command
      else if String.eqb choice "4"
      then
        line2 <- input ;;
        let new_command := strip line2 in
        if truthy new_command
        then options_menu fuel' new_command
        else options_menu fuel' command
      else if String.eqb choice "5"
      then ret tt
      else input ;;; options_menu fuel' command
  end.

(** [process_built_command]: the explanation is only printed. *)
Definition process_built_command (fuel : nat) (command : string) : M unit :=
  save_command_history command ;;; options_menu fuel command.

(** [build_new_command] *)
Definition build_new_command (fuel : nat) : M unit :=
  update_parts (fun _ => empty_parts) ;;;
  get_scan_type ;;;
  get_target ;;;
  get_port_specification ;;;
  get_timing_template ;;;
  get_detection_options ;;;
  get_output_options ;;;
  get_misc_options ;;;
  command <- call_build_command ;;
  process_built_command fuel command.

(** [quick_templates] *)
Definition quick_templates (fuel : nat) : M unit :=
  line <- input ;;
  let choice := strip line in
  match lookup choice templates with
  | Some template =>
      line2 <- input ;;
      let target := strip line2 in
      if truthy target
      then process_built_command fuel
             (format_target (command_pattern template) target)
      else ret tt
  | None => ret tt
  end ;;;
  if truthy choice then input ;;; ret tt else ret tt.

(** [show_help] prints and waits for a line. *)
Definition show_help : M unit := input ;;; ret tt.

(** What [main_menu] does with one choice. *)
Definition main_menu_choice (fuel : nat) (choice : string) : M unit :=
  if String.eqb choice "1" then build_new_command fuel
  else if String.eqb choice "2"
  then
    selected_cmd <- show_command_history ;;
    match selected_cmd with
    | Some c => if truthy c then process_built_command fuel c else ret tt
    | None => ret tt
    end
  else if String.eqb choice "3" then quick_templates fuel
  else if String.eqb choice "4" then show_help
  else if String.eqb choice "5" then raise (SystemExit 0)
  else input ;;; ret tt.

(** [main_menu] *)
Fixpoint main_menu (fuel : nat) {struct fuel} : M unit :=
  match fuel with
  | O => pending
  | S fuel' =>
      line <- input ;;
      main_menu_choice fuel' (strip line) ;;; main_menu fuel'
  end.

End WithClock.

(** The three components of a run. *)
Definition outcome_of {A} (r : Run A) : Outcome A := fst (fst r).
Definition builder_of {A} (r : Run A) : Builder := snd (fst r).
Definition rest_of {A} (r : Run A) : list string := snd r.

(** ** Assignments to [command_parts], for statements about their order *)

Inductive Key :=
| KScanType | KTarget | KPorts | KTiming | KDetection | KOutput | KMiscOptions.

Inductive Assignment :=
| SetScanType (v : string)
| SetTarget (v : string)
| SetPorts (v : string)
| SetTiming (v : string)
| SetDetection (v : string)
| SetOutput (v : string)
| SetMiscOptions (v : list string).

Definition key_of (a : Assignment) : Key :=
  match a with
  | SetScanType _ => KScanType
  | SetTarget _ => KTarget
  | SetPorts _ => KPorts
  | SetTiming _ => KTiming
  | SetDetection _ => KDetection
  | SetOutput _ => KOutput
  | SetMiscOptions _ => KMiscOptions
  end.

Definition assign (a : Assignment) (cp : CommandParts) : CommandParts :=
  match a with
  | SetScanType v => set_scan_type v cp
  | SetTarget v => set_target v cp
  | SetPorts v => set_ports v cp
  | SetTiming v => set_timing v cp
  | SetDetection v => set_detection v cp
  | SetOutput v => set_output v cp
  | SetMiscOptions v => set_misc_options v cp
  end.

(** The assignments of a list carried out from left to right. *)
Fixpoint assign_all (l : list Assignment) (cp : CommandParts) : CommandParts :=
  match l with
  | [] => cp
  | a :: r => assign_all r (assign a cp)
  end.

(** The piece one part adds to the joined command, and the same for a
    list of tokens. *)
Definition seg (s : string) : string :=
  if truthy s then (" " ++ s)%string else "".

Fixpoint segs (l : list string) : string :=
  match l with
  | [] => ""
  | x :: r => (" " ++ x ++ segs r)%string
  end.




(** An effect other than a write of the history file. *)
Definition quiet (e : Effect) : Prop :=
  match e with HistoryWritten _ => False | _ => True end.

(** Between [b] and [b'] the history file, the builder's parts and the
    write permission stayed as they were, and no write of the history file
    was added to the effects. *)
Definition unchanged_history (b b' : Builder) : Prop :=
  history_file b' = history_file b
  /\ history_writable b' = history_writable b
  /\ command_parts b' = command_parts b
  /\ exists log, effects b' = effects b ++ log /\ Forall quiet log.

Definition keeps_history {A} (m : M A) : Prop :=
  forall inp b, unchanged_history b (builder_of (m inp b)).

(** A method that never stays [Pending] and only takes lines away. *)
Definition settles {A} (m : M A) : Prop :=
  forall inp b,
    outcome_of (m inp b) <> Pending
    /\ length (rest_of (m inp b)) <= length inp.

(** Between [b] and [b'] only [command_parts] and the clock may differ. *)
Definition only_parts (b b' : Builder) : Prop :=
  history_file b' = history_file b
  /\ storage b' = storage b
  /\ clipboard b' = clipboard b
  /\ scripts_writable b' = scripts_writable b
  /\ effects b' = effects b.

(** A run [r] of a step for the part [k], started on the lines [inp] with
    the builder [b]: it returned or met the end of the input, the lines it
    left are what follows the lines it took, and it made at most one
    assignment, to [k]. *)
Definition step_run (k : Key) (inp : list string) (b : Builder)
  (r : Run unit) : Prop :=
  only_parts b (builder_of r)
  /\ (command_parts (builder_of r) = command_parts b
      \/ exists a, key_of a = k
                   /\ command_parts (builder_of r)
                      = assign a (command_parts b))
  /\ (exists taken, inp = taken ++ rest_of r)
  /\ (outcome_of r = Returned tt \/ outcome_of r = Raised EOFError).

Definition step_spec (k : Key) (m : M unit) : Prop :=
  forall inp b, step_run k inp b (m inp b).

(** The exceptions that can end a session started in the world of [b],
    each with what it needs of that world. *)
Definition session_exn (b : Builder) (e : exn) : Prop :=
  e = EOFError
  \/ e = IndexError
  \/ e = ValueError
  \/ e = SystemExit 0
  \/ (e = OSError /\ storage b = NoDirectory)
  \/ (e = PyperclipException /\ clipboard b = ClipboardFails).

(** Between [b] and [b'] the world outside the history file is the same,
    and the history file stayed as it was or was written with at least
    one and at most 50 entries. *)
Definition history_step (b b' : Builder) : Prop :=
  storage b' = storage b
  /\ clipboard b' = clipboard b
  /\ (history_file b' = history_file b
      \/ exists h, history_file b' = Stored h /\ 1 <= length h <= 50).

(** A method that leaves the lines that follow the ones it took, raises
    only the exceptions of a session and treats the history file as
    [history_step] says. *)
Definition tame {A} (m : M A) : Prop :=
  forall inp b,
    (exists taken, inp = taken ++ rest_of (m inp b))
    /\ (forall e, outcome_of (m inp b) = Raised e -> session_exn b e)
    /\ history_step b (builder_of (m inp b)).


(** The seven calls of [build_new_command], in its order. *)
Definition interactive_steps (clk : Clock) : M unit :=
  get_scan_type ;;;
  get_target ;;;
  get_port_specification ;;;
  get_timing_template ;;;
  get_detection_options ;;;
  get_output_options clk ;;;
  get_misc_options.

(** A method of the step sequence: it leaves all but the parts alone, only
    takes lines away and either meets the end of the input or returns with
    parts that are in the relation [Q] to the parts it started from. *)
Definition step_to (Q : CommandParts -> CommandParts -> Prop) (m : M unit)
  : Prop :=
  forall inp b,
    exists o b' inp',
      m inp b = (o, b', inp')
      /\ only_parts b b'
      /\ length inp' <= length inp
      /\ ((o = Returned tt /\ Q (command_parts b) (command_parts b'))
          \/ o = Raised EOFError).

(** ** Sample data *)

Definition sample_clock : Clock :=
  MkClock (fun n => ("2025-01-01T00:00:0" ++ py_str (Z.of_nat n))%string)
          (fun n => ("20250101_00000" ++ py_str (Z.of_nat n))%string)
          (fun n => ("2025-01-01 00:00:0" ++ py_str (Z.of_nat n))%string).

Definition sample_entry (k : nat) : HistoryEntry :=
  Entry "2025-01-01T00:00:00"
        ("nmap -sn 10.0.0." ++ py_str (Z.of_nat k))%string "".

(** A history of [n] different entries, oldest first. *)
Definition sample_history (n : nat) : list HistoryEntry :=
  map sample_entry (seq 0 n).

(** * Properties *)

(** ** Sequences *)

Lemma last_slice_length {A} (k : nat) (l : list A) :
  length (last_slice k l) = min k (length l).
Proof.
  unfold last_slice. rewrite length_skipn. lia.
Qed.

Lemma last_slice_is_suffix {A} (k : nat) (l : list A) :
  l = firstn (length l - k) l ++ last_slice k l.
Proof.
  unfold last_slice. symmetry. apply firstn_skipn.
Qed.

Lemma enumerate_nth {A} (l : list A) :
  forall (start : Z) (k : nat),
    nth_error (enumerate start l) k
    = option_map (fun x => ((start + Z.of_nat k)%Z, x)) (nth_error l k).
Proof.
  induction l as [|x r IH]; intros start k.
  - destruct k; reflexivity.
  - destruct k as [|k]; simpl.
    + now rewrite Z.add_0_r.
    + rewrite IH. replace (start + 1 + Z.of_nat k)%Z
        with (start + Z.pos (Pos.of_succ_nat k))%Z by lia.
      reflexivity.
Qed.

Lemma py_index_from_end {A} (l : list A) (k : nat) :
  1 <= k <= length l ->
  py_index l (- Z.of_nat k) = nth_error l (length l - k).
Proof.
  intros Hk. unfold py_index.
  destruct (Z.ltb_spec (- Z.of_nat k) 0); [|lia].
  destruct (Z.leb_spec 0 (Z.of_nat (length l) + - Z.of_nat k)); [|lia].
  f_equal. lia.
Qed.

(** ** History store *)

Lemma writable_storage (b : Builder) :
  history_writable b = true -> storage b = Writable.
Proof.
  unfold history_writable. destruct (storage b); congruence.
Qed.

(** What [save_command_history] does when the file can be written. *)
Lemma save_command_history_writable (clk : Clock) command inp b :
  history_writable b = true ->
  save_command_history clk command inp b
  = (Returned tt,
     emit (HistoryWritten
             (append_entry (load_history (history_file b))
                (Entry (isoformat clk (ticks b)) command
                       (target (command_parts b)))))
          (with_history_file
             (Stored
                (append_entry (load_history (history_file b))
                   (Entry (isoformat clk (ticks b)) command
                          (target (command_parts b)))))
             (tick b)),
     inp).
Proof.
  intros Hw. unfold save_command_history.
  replace (history_writable (tick b)) with true by (symmetry; exact Hw).
  now rewrite (writable_storage b Hw).
Qed.

(** C5: appending to the history keeps the entries in their order, puts the
    new one last and keeps the newest 50: the stored list is a suffix of the
    old list followed by the new entry, its length is at most 50, and from a
    full list of 50 exactly the oldest entry is dropped. The old list is
    the content of the file, or empty when the file is absent or cannot be
    read. *)
Theorem history_append_fifo_bounded :
  forall (clk : Clock) (command : string) (inp : list string) (b : Builder),
    history_writable b = true ->
    let history := load_history (history_file b) in
    let e := Entry (isoformat clk (ticks b)) command
                   (target (command_parts b)) in
    let r := save_command_history clk command inp b in
    exists kept dropped,
      outcome_of r = Returned tt
      /\ history_file (builder_of r) = Stored kept
      /\ history ++ [e] = dropped ++ kept
      /\ length kept = min 50 (S (length history))
      /\ length kept <= 50
      /\ (length history < 50 -> dropped = [])
      /\ (length history = 50 -> kept = tl history ++ [e]).
Proof.
  intros clk command inp b Hw history e r.
  exists (append_entry history e),
         (firstn (length (history ++ [e]) - 50) (history ++ [e])).
  assert (Hlen : length (history ++ [e]) = S (length history))
    by (rewrite length_app; simpl; lia).
  subst r. rewrite (save_command_history_writable clk command inp b Hw).
  fold history e.
  unfold outcome_of, builder_of. simpl.
  repeat split.
  - apply last_slice_is_suffix.
  - unfold append_entry. rewrite last_slice_length, Hlen. reflexivity.
  - unfold append_entry. rewrite last_slice_length. lia.
  - intros Hlt. rewrite Hlen.
    replace (S (length history) - 50) with 0 by lia. reflexivity.
  - intros H50. unfold append_entry, last_slice. rewrite Hlen, H50.
    destruct history as [|x rest]; [discriminate|]. reflexivity.
Qed.

Lemma history_append_fifo_bounded_witness :
  let b := new_builder (Stored (sample_history 50)) true true in
  let e := Entry (isoformat sample_clock 0) "nmap -F 10.0.0.9" "" in
  exists kept dropped,
    outcome_of (save_command_history sample_clock "nmap -F 10.0.0.9" [] b)
    = Returned tt
    /\ history_file
         (builder_of (save_command_history sample_clock "nmap -F 10.0.0.9" [] b))
       = Stored kept
    /\ sample_history 50 ++ [e] = dropped ++ kept
    /\ length kept = min 50 (S (length (sample_history 50)))
    /\ length kept <= 50
    /\ (length (sample_history 50) < 50 -> dropped = [])
    /\ (length (sample_history 50) = 50 -> kept = tl (sample_history 50) ++ [e]).
Proof.
  intros b e.
  apply (@history_append_fifo_bounded sample_clock "nmap -F 10.0.0.9" [] b).
  reflexivity.
Defined.

(** With twelve entries the view shows positions 2 .. 11 under the numbers
    1 .. 10. *)
Example history_view_of_twelve :
  map (fun p => (fst p, command (snd p))) (history_view (sample_history 12))
  = [ (1, "nmap -sn 10.0.0.2"); (2, "nmap -sn 10.0.0.3");
      (3, "nmap -sn 10.0.0.4"); (4, "nmap -sn 10.0.0.5");
      (5, "nmap -sn 10.0.0.6"); (6, "nmap -sn 10.0.0.7");
      (7, "nmap -sn 10.0.0.8"); (8, "nmap -sn 10.0.0.9");
      (9, "nmap -sn 10.0.0.10"); (10, "nmap -sn 10.0.0.11") ]%Z.
Proof. reflexivity. Qed.

(** C1, as the specification words it, fails: with twelve entries stored,
    display index 1 resolves to the entry at position 2 (the first line of
    the view), not to the entry at position 12 - 1 = 11. *)
Lemma display_index_one_is_not_most_recent :
  let history := sample_history 12 in
  let b := new_builder (Stored history) true true in
  outcome_of (show_command_history ["1"] b)
  = Returned (option_map command (nth_error history 2))
  /\ outcome_of (show_command_history ["1"] b)
     <> Returned (option_map command (nth_error history (12 - 1))).
Proof.
  split; [reflexivity | discriminate].
Qed.

(** With fewer than ten entries the index [-(11 - i)] can fall before the
    start of the list: for five entries every display index raises
    [IndexError]. *)
Lemma short_history_selection_raises :
  let b := new_builder (Stored (sample_history 5)) true true in
  map (fun line => outcome_of (show_command_history [line] b))
      ["1"; "2"; "3"; "4"; "5"]
  = [Raised IndexError; Raised IndexError; Raised IndexError;
     Raised IndexError; Raised IndexError].
Proof. reflexivity. Qed.

(** C1 (amended): with at least ten entries stored, the view numbers the
    last ten 1 .. 10 in stored order, and display index [i] resolves to the
    entry shown under [i], which is the one at position [L + i - 11]. *)
Theorem history_selection_resolves_displayed_entry :
  forall (line : string) (inp : list string) (b : Builder)
         (history : list HistoryEntry) (i : Z),
    history_file b = Stored history ->
    10 <= length history ->
    isdigit (strip line) = true ->
    py_int (strip line) = Some i ->
    (1 <= i <= 10)%Z ->
    exists e,
      nth_error history (length history + Z.to_nat i - 11) = Some e
      /\ nth_error (history_view history) (Z.to_nat i - 1) = Some (i, e)
      /\ show_command_history (line :: inp) b
         = (Returned (Some (command e)), b, inp).
Proof.
  intros line inp b history i Hfile Hlen Hdig Hint Hi.
  set (pos := length history + Z.to_nat i - 11).
  assert (Hpos : pos < length history) by (unfold pos; lia).
  destruct (nth_error history pos) as [e|] eqn:He;
    [| apply nth_error_None in He; lia].
  exists e. split; [reflexivity|]. split.
  - unfold history_view. rewrite enumerate_nth.
    unfold last_slice. rewrite nth_error_skipn.
    replace (length history - 10 + (Z.to_nat i - 1)) with pos
      by (unfold pos; lia).
    rewrite He. unfold option_map. f_equal. f_equal. lia.
  - unfold show_command_history. rewrite Hfile.
    destruct history as [|h0 hs]; [simpl in Hlen; lia|].
    unfold bind, input. rewrite Hdig, Hint.
    replace ((1 <=? i) && (i <=? Z.of_nat (min 10 (length (h0 :: hs)))))%Z
      with true
      by (symmetry; apply andb_true_iff; split; apply Z.leb_le; lia).
    replace (- (11 - i))%Z with (- Z.of_nat (11 - Z.to_nat i))%Z by lia.
    rewrite py_index_from_end by lia.
    replace (length (h0 :: hs) - (11 - Z.to_nat i)) with pos
      by (unfold pos; lia).
    rewrite He. reflexivity.
Qed.

Lemma history_selection_resolves_displayed_entry_witness :
  exists e,
    nth_error (sample_history 12) (12 + Z.to_nat 3 - 11) = Some e
    /\ nth_error (history_view (sample_history 12)) (Z.to_nat 3 - 1)
       = Some (3%Z, e)
    /\ show_command_history [" 3 "; "5"]
         (new_builder (Stored (sample_history 12)) true true)
       = (Returned (Some (command e)),
          new_builder (Stored (sample_history 12)) true true, ["5"]).
Proof.
  apply (@history_selection_resolves_displayed_entry " 3 " ["5"]
           (new_builder (Stored (sample_history 12)) true true)
           (sample_history 12) 3%Z);
    [reflexivity | simpl; lia | reflexivity | reflexivity | lia].
Defined.

(** ** Strings *)

Lemma string_app_nil_r (s : string) : (s ++ "")%string = s.
Proof.
  induction s as [|c s IH]; simpl; [reflexivity | now rewrite IH].
Qed.

Lemma string_app_assoc (s t u : string) :
  ((s ++ t) ++ u)%string = (s ++ t ++ u)%string.
Proof.
  induction s as [|c s IH]; simpl; [reflexivity | now rewrite IH].
Qed.

Lemma join_cons_segs (x : string) (l : list string) :
  join " " (x :: l) = (x ++ segs l)%string.
Proof.
  revert x. induction l as [|y r IH]; intros x.
  - simpl. now rewrite string_app_nil_r.
  - unfold join in *. change (String.concat " " (x :: y :: r))
      with (x ++ " " ++ String.concat " " (y :: r))%string.
    rewrite IH. reflexivity.
Qed.

Lemma segs_app (l1 l2 : list string) :
  segs (l1 ++ l2) = (segs l1 ++ segs l2)%string.
Proof.
  induction l1 as [|x r IH]; simpl; [reflexivity|].
  rewrite IH, string_app_assoc. reflexivity.
Qed.

Lemma segs_optional (s : string) :
  segs (if truthy s then [s] else []) = seg s.
Proof.
  unfold seg. destruct (truthy s); simpl;
    [now rewrite string_app_nil_r | reflexivity].
Qed.

Lemma segs_split_guarded (s : string) :
  segs (if truthy s then split_ws s else []) = segs (split_ws s).
Proof.
  destruct s; reflexivity.
Qed.

Lemma join_snoc (l : list string) (x : string) :
  l <> [] -> join " " (l ++ [x]) = (join " " l ++ " " ++ x)%string.
Proof.
  destruct l as [|y r]; [congruence|]. intros _.
  change ((y :: r) ++ [x]) with (y :: (r ++ [x])).
  rewrite !join_cons_segs, segs_app, string_app_assoc. simpl.
  now rewrite string_app_nil_r.
Qed.

(** ** Command assembler *)

(** Assignments to different keys can be swapped. *)
Lemma assign_swap (a1 a2 : Assignment) (cp : CommandParts) :
  key_of a1 <> key_of a2 ->
  assign a1 (assign a2 cp) = assign a2 (assign a1 cp).
Proof.
  destruct a1, a2; simpl; intros H; try reflexivity; congruence.
Qed.

Lemma assign_all_permutation (l1 l2 : list Assignment) :
  Permutation l1 l2 ->
  NoDup (map key_of l1) ->
  forall cp, assign_all l1 cp = assign_all l2 cp.
Proof.
  induction 1 as [| a l l' Hp IH | a1 a2 l | l l' l'' Hp1 IH1 Hp2 IH2];
    intros Hnd cp.
  - reflexivity.
  - simpl. apply IH. now inversion Hnd.
  - simpl. rewrite assign_swap; [reflexivity|].
    inversion Hnd as [|k ks Hnotin _]; subst.
    intros Heq. apply Hnotin. left. now symmetry.
  - rewrite IH1 by assumption. apply IH2.
    eapply Permutation_NoDup; [apply Permutation_map, Hp1 | assumption].
Qed.

(** The rendered command, piece by piece. *)
Lemma build_command_pieces (cp : CommandParts) :
  build_command cp
  = ("nmap" ++ seg (scan_type cp) ++ seg (ports cp) ++ seg (timing cp)
     ++ segs (split_ws (detection cp)) ++ segs (split_ws (output cp))
     ++ segs (misc_options cp) ++ " " ++ target cp)%string.
Proof.
  unfold build_command, cmd_parts.
  change (["nmap"] ++ ?l) with ("nmap" :: l).
  rewrite join_cons_segs, !segs_app, !segs_optional, !segs_split_guarded.
  destruct (misc_options cp) as [|m ms]; simpl; now rewrite string_app_nil_r.
Qed.

(** C4: whatever the order in which the parts were assigned, the command is
    the tool name followed by scan type, ports, timing, detection flags,
    output, extra options and, last, the target. *)
Theorem render_fixed_order_target_last :
  forall (start : CommandParts) (l1 l2 : list Assignment),
    NoDup (map key_of l1) ->
    Permutation l1 l2 ->
    let cp := assign_all l1 start in
    build_command (assign_all l2 start) = build_command cp
    /\ build_command cp
       = ("nmap" ++ seg (scan_type cp) ++ seg (ports cp) ++ seg (timing cp)
          ++ segs (split_ws (detection cp)) ++ segs (split_ws (output cp))
          ++ segs (misc_options cp) ++ " " ++ target cp)%string.
Proof.
  intros start l1 l2 Hnd Hp cp. split.
  - unfold cp. now rewrite (assign_all_permutation Hp Hnd).
  - apply build_command_pieces.
Qed.

Lemma render_fixed_order_target_last_witness :
  let l1 := [SetScanType "-sS"; SetPorts "-p 80,443"; SetTarget "10.0.0.1"] in
  let l2 := [SetPorts "-p 80,443"; SetScanType "-sS"; SetTarget "10.0.0.1"] in
  let cp := assign_all l1 empty_parts in
  build_command (assign_all l2 empty_parts) = build_command cp
  /\ build_command cp
     = ("nmap" ++ seg (scan_type cp) ++ seg (ports cp) ++ seg (timing cp)
        ++ segs (split_ws (detection cp)) ++ segs (split_ws (output cp))
        ++ segs (misc_options cp) ++ " " ++ target cp)%string.
Proof.
  intros l1 l2.
  apply (@render_fixed_order_target_last empty_parts l1 l2).
  - unfold l1. simpl. repeat (apply NoDup_cons; [simpl; intuition discriminate|]).
    apply NoDup_nil.
  - apply perm_swap.
Defined.

(** The example of the specification, in all six orders of assignment. *)
Example render_example_any_order :
  map (fun l => build_command (assign_all l empty_parts))
      [ [SetScanType "-sS"; SetPorts "-p 80,443"; SetTarget "10.0.0.1"];
        [SetScanType "-sS"; SetTarget "10.0.0.1"; SetPorts "-p 80,443"];
        [SetPorts "-p 80,443"; SetScanType "-sS"; SetTarget "10.0.0.1"];
        [SetPorts "-p 80,443"; SetTarget "10.0.0.1"; SetScanType "-sS"];
        [SetTarget "10.0.0.1"; SetScanType "-sS"; SetPorts "-p 80,443"];
        [SetTarget "10.0.0.1"; SetPorts "-p 80,443"; SetScanType "-sS"] ]
  = repeat "nmap -sS -p 80,443 10.0.0.1" 6.
Proof. reflexivity. Qed.

(** C3, as the specification words it, fails: with an empty target
    [build_command] does not fail, it returns the command with nothing
    after the last separator. *)
Lemma build_command_empty_target_returns :
  let b := new_builder Missing true true in
  target (command_parts b) = ""
  /\ call_build_command [] b = (Returned "nmap ", b, []).
Proof.
  split; reflexivity.
Qed.

Lemma cmd_parts_target_last (cp : CommandParts) :
  exists options, options <> [] /\ cmd_parts cp = options ++ [target cp].
Proof.
  unfold cmd_parts.
  eexists. split; [| rewrite !app_assoc; reflexivity].
  simpl. discriminate.
Qed.

(** C3 (amended): [build_command] never fails; it returns the parts that
    come before the target, one separator and the target, so that an empty
    target leaves a command that ends with the separator. *)
Theorem build_command_never_fails :
  forall (inp : list string) (b : Builder),
    let cp := command_parts b in
    call_build_command inp b = (Returned (build_command cp), b, inp)
    /\ build_command cp
       = (join " " (removelast (cmd_parts cp)) ++ " " ++ target cp)%string
    /\ (target cp = "" ->
        build_command cp
        = (join " " (removelast (cmd_parts cp)) ++ " ")%string).
Proof.
  intros inp b cp.
  assert (Hcmd : build_command cp
            = (join " " (removelast (cmd_parts cp)) ++ " " ++ target cp)%string).
  { destruct (cmd_parts_target_last cp) as [options [Hne Heq]].
    unfold build_command. rewrite Heq, removelast_last.
    now apply join_snoc. }
  split; [reflexivity|]. split; [exact Hcmd|].
  intros Hempty. rewrite Hcmd, Hempty. reflexivity.
Qed.

Lemma build_command_never_fails_witness :
  let b := new_builder Missing true true in
  let cp := set_scan_type "-sS" empty_parts in
  target cp = ""
  /\ build_command cp = (join " " (removelast (cmd_parts cp)) ++ " ")%string
  /\ build_command cp = "nmap -sS ".
Proof.
  intros b cp.
  split; [reflexivity|]. split; [|reflexivity].
  apply (@build_command_never_fails [] (with_parts cp b)).
  reflexivity.
Defined.

(** ** Input validators *)




(** Values that [int] accepts but that are no ports are asked again. *)
Example port_range_rejections :
  let b := new_builder Missing true true in
  map (fun lines => outcome_of (get_port_specification ("11" :: lines) b))
      [ ["0"; "80"]; ["80"; "65536"]; ["443"; "80"]; ["-1"; "5"]; ["a"; "5"] ]
  = repeat (Raised EOFError) 5
  /\ get_port_specification ["11"; "1"; "65535"] b
     = (Returned tt, with_parts (set_ports "-p 1-65535" (command_parts b)) b, []).
Proof. split; reflexivity. Qed.

(** ** Detection selection *)





(** Unknown keys vanish, repeated keys repeat, the order is the order of
    the input. *)
Example detection_selection_example :
  let b := new_builder Missing true true in
  map (fun line => detection (command_parts
                    (builder_of (get_detection_options [line; "http-title"] b))))
      [ "2, x,9,2 ,,1"; "1,1,1"; "8,zz,3"; "zz,10"; "" ]
  = [ "-O --script=http-title -O -sV"; "-sV -sV -sV"; "-A -sC"; ""; "" ].
Proof. reflexivity. Qed.

(** C8, as the specification words it, fails: an empty script name is
    taken like any other and the flag without a name is added. *)
Lemma empty_script_name_is_accepted :
  let b := new_builder Missing true true in
  get_detection_options ["9"; ""] b
  = (Returned tt, with_parts (set_detection "--script=" (command_parts b)) b, [])
  /\ build_command
       (set_target "10.0.0.1"
          (command_parts (builder_of (get_detection_options ["9"; ""] b))))
     = "nmap --script= 10.0.0.1".
Proof.
  split; reflexivity.
Qed.

(** C8 (amended): the custom script choice takes whatever the next line is,
    stripped and possibly empty, and adds it after the flag prefix. *)
Theorem custom_script_any_name :
  forall (script_line : string) (inp : list string) (b : Builder),
    get_detection_options ("9" :: script_line :: inp) b
    = (Returned tt,
       with_parts
         (set_detection ("--script=" ++ strip script_line)%string
                        (command_parts b)) b,
       inp)
    /\ forall (more detection_flags : list string),
        detection_loop ("9" :: more) detection_flags (script_line :: inp) b
        = detection_loop more
            (detection_flags ++ [("--script=" ++ strip script_line)%string])
            inp b.
Proof.
  intros script_line inp b. split; reflexivity.
Qed.

(** ** Step sequence *)

Lemma scan_type_flag_not_empty (k : string) (d : OptionDescriptor) :
  lookup k scan_types = Some d -> truthy (flag d) = true.
Proof.
  unfold scan_types, lookup.
  repeat (destruct (String.eqb k _);
          [intros H; injection H as <-; reflexivity|]).
  discriminate.
Qed.

Lemma get_scan_type_sets_flag (inp : list string) :
  forall (b b' : Builder) (rest : list string),
    get_scan_type inp b = (Returned tt, b', rest) ->
    truthy (scan_type (command_parts b')) = true.
Proof.
  induction inp as [|line inp IH]; intros b b' rest Hrun;
    cbn [get_scan_type] in Hrun; [discriminate|].
  destruct (lookup (strip line) scan_types) as [d|] eqn:Hd.
  - injection Hrun as <- _. simpl. eapply scan_type_flag_not_empty, Hd.
  - eapply IH, Hrun.
Qed.

Lemma get_target_sets_target (inp : list string) :
  forall (b b' : Builder) (rest : list string),
    get_target inp b = (Returned tt, b', rest) ->
    truthy (target (command_parts b')) = true.
Proof.
  induction inp as [|line inp IH]; intros b b' rest Hrun;
    cbn [get_target] in Hrun; [discriminate|].
  destruct (truthy (strip line)) eqn:Ht.
  - injection Hrun as <- _. exact Ht.
  - eapply IH, Hrun.
Qed.

(** C2, as the specification words it, fails: an empty line does not skip
    the scan type step nor the ports step; both ask again and go on with
    the next line. *)
Lemma scan_type_and_ports_are_not_skipped :
  let b := new_builder Missing true true in
  get_scan_type [""; "3"; "10.0.0.1"] b
  = (Returned tt, with_parts (set_scan_type "-sU" empty_parts) b, ["10.0.0.1"])
  /\ get_scan_type [""; "3"; "10.0.0.1"] b
     <> (Returned tt, b, ["3"; "10.0.0.1"])
  /\ get_port_specification [""; "2"; "4"] b
     = (Returned tt, with_parts (set_ports "-F" empty_parts) b, ["4"])
  /\ get_port_specification [""; "2"; "4"] b <> (Returned tt, b, ["2"; "4"]).
Proof.
  repeat split; try reflexivity; discriminate.
Qed.

(** C2 (amended): an empty line skips the timing, detection, output and
    extra options steps and leaves the builder as it was; the scan type,
    target and ports steps ask again on an empty line. The scan type and
    the target are never absent once their step has returned; the ports
    stay absent with choice 1. *)
Theorem optional_and_mandatory_steps :
  forall (clk : Clock) (line : string) (inp : list string) (b : Builder),
    strip line = "" ->
    (get_timing_template (line :: inp) b = (Returned tt, b, inp)
     /\ get_detection_options (line :: inp) b = (Returned tt, b, inp)
     /\ get_output_options clk (line :: inp) b = (Returned tt, b, inp)
     /\ get_misc_options (line :: inp) b = (Returned tt, b, inp))
    /\ (get_scan_type (line :: inp) b = get_scan_type inp b
        /\ get_target (line :: inp) b = get_target inp b
        /\ get_port_specification (line :: inp) b
           = get_port_specification inp b)
    /\ (forall b' rest,
          get_scan_type (line :: inp) b = (Returned tt, b', rest) ->
          truthy (scan_type (command_parts b')) = true)
    /\ (forall b' rest,
          get_target (line :: inp) b = (Returned tt, b', rest) ->
          truthy (target (command_parts b')) = true)
    /\ get_port_specification ("1" :: inp) b = (Returned tt, b, inp).
Proof.
  intros clk line inp b Hempty.
  split; [|split; [|split; [|split]]].
  - unfold get_timing_template, get_detection_options, get_output_options,
      get_misc_options, bind, input. rewrite Hempty. repeat split.
  - cbn [get_scan_type get_target get_port_specification].
    rewrite Hempty. repeat split.
  - intros b' rest. apply get_scan_type_sets_flag.
  - intros b' rest. apply get_target_sets_target.
  - reflexivity.
Qed.

Lemma optional_and_mandatory_steps_witness :
  let b := new_builder Missing true true in
  let inp := ["4"; "10.0.0.1"] in
  strip "  " = ""
  /\ get_timing_template ("  " :: inp) b = (Returned tt, b, inp)
  /\ get_scan_type ("  " :: inp) b = get_scan_type inp b
  /\ get_target ("  " :: inp) b = get_target inp b.
Proof.
  intros b inp.
  destruct (@optional_and_mandatory_steps sample_clock "  " inp b)
    as [[Ht _] [[Hs [Hg _]] _]]; [reflexivity|].
  repeat split; assumption.
Defined.

(** ** Post-build menu *)

Lemma bind_assoc {A B C} (m : M A) (k : A -> M B) (k' : B -> M C) inp b :
  bind (bind m k) k' inp b = bind m (fun a => bind (k a) k') inp b.
Proof.
  unfold bind. destruct (m inp b) as [[[a| e |] b1] inp1]; reflexivity.
Qed.

Lemma unchanged_history_refl (b : Builder) : unchanged_history b b.
Proof.
  repeat split. exists []. now rewrite app_nil_r.
Qed.

Lemma unchanged_history_trans (b1 b2 b3 : Builder) :
  unchanged_history b1 b2 -> unchanged_history b2 b3 ->
  unchanged_history b1 b3.
Proof.
  intros (Hf1 & Hw1 & Hp1 & log1 & He1 & Hq1)
         (Hf2 & Hw2 & Hp2 & log2 & He2 & Hq2).
  repeat split; try congruence.
  exists (log1 ++ log2). split.
  - now rewrite He2, He1, app_assoc.
  - now apply Forall_app.
Qed.

Lemma keeps_ret {A} (a : A) : keeps_history (ret a).
Proof. intros inp b. apply unchanged_history_refl. Qed.

Lemma keeps_raise {A} (e : exn) : keeps_history (@raise A e).
Proof. intros inp b. apply unchanged_history_refl. Qed.

Lemma keeps_pending {A} : keeps_history (@pending A).
Proof. intros inp b. apply unchanged_history_refl. Qed.

Lemma keeps_input : keeps_history input.
Proof.
  intros [|line rest] b; apply unchanged_history_refl.
Qed.

Lemma keeps_now : keeps_history now.
Proof.
  intros inp b. repeat split. exists []. simpl. now rewrite app_nil_r.
Qed.

Lemma keeps_perform (e : Effect) : quiet e -> keeps_history (perform e).
Proof.
  intros Hq inp b. repeat split. exists [e]. split; [reflexivity|].
  now constructor.
Qed.

Lemma keeps_bind {A B} (m : M A) (k : A -> M B) :
  keeps_history m -> (forall a, keeps_history (k a)) ->
  keeps_history (bind m k).
Proof.
  intros Hm Hk inp b. specialize (Hm inp b). unfold bind.
  destruct (m inp b) as [[[a| e |] b1] inp1]; unfold builder_of in *;
    simpl in *; try exact Hm.
  eapply unchanged_history_trans; [exact Hm | apply Hk].
Qed.

Lemma settles_ret {A} (a : A) : settles (ret a).
Proof. intros inp b. split; [discriminate | apply le_n]. Qed.

Lemma settles_input : settles input.
Proof.
  intros [|line rest] b; (split; [discriminate | simpl; lia]).
Qed.

Lemma settles_now : settles now.
Proof. intros inp b. split; [discriminate | apply le_n]. Qed.

Lemma settles_perform (e : Effect) : settles (perform e).
Proof. intros inp b. split; [discriminate | apply le_n]. Qed.

Lemma settles_bind {A B} (m : M A) (k : A -> M B) :
  settles m -> (forall a, settles (k a)) -> settles (bind m k).
Proof.
  intros Hm Hk inp b. destruct (Hm inp b) as [Hm1 Hm2]. unfold bind.
  destruct (m inp b) as [[[a| e |] b1] inp1];
    unfold outcome_of, rest_of in *; simpl in *.
  - destruct (Hk a inp1 b1) as [Hk1 Hk2]. unfold rest_of in Hk2.
    split; [exact Hk1 | lia].
  - split; [discriminate | exact Hm2].
  - congruence.
Qed.

(** After a method that settles, what follows only has to end on inputs
    that are no longer. *)
Lemma bind_not_pending {A B} (m : M A) (k : A -> M B) inp b :
  settles m ->
  (forall a inp' b', length inp' <= length inp ->
                     outcome_of (k a inp' b') <> Pending) ->
  outcome_of (bind m k inp b) <> Pending.
Proof.
  intros Hm Hk. destruct (Hm inp b) as [Hm1 Hm2]. unfold bind.
  destruct (m inp b) as [[[a| e |] b1] inp1];
    unfold outcome_of, rest_of in *; simpl in *.
  - now apply Hk.
  - discriminate.
  - congruence.
Qed.

Create HintDb menu.
#[local] Hint Resolve keeps_ret keeps_raise keeps_pending keeps_input keeps_now
  keeps_perform keeps_bind settles_ret settles_input settles_now
  settles_perform settles_bind : menu.

Section PostBuild.

Variable clk : Clock.

Lemma keeps_execute_command command :
  keeps_history (execute_command command).
Proof.
  unfold execute_command. apply keeps_bind; [auto with menu|].
  intros line. destruct (says_yes _); auto with menu.
  apply keeps_perform. exact I.
Qed.

Lemma keeps_save_as_script command :
  keeps_history (save_as_script clk command).
Proof.
  unfold save_as_script. apply keeps_bind; [auto with menu|].
  intros line. destruct (says_yes _); [|auto with menu].
  repeat (apply keeps_bind; [auto with menu | intros ?]).
  intros inp b. destruct (scripts_writable b);
    [apply keeps_perform; exact I | apply keeps_ret].
Qed.

Lemma keeps_copy_to_clipboard command :
  keeps_history (copy_to_clipboard command).
Proof.
  intros inp b. unfold copy_to_clipboard.
  destruct (clipboard b).
  - apply unchanged_history_refl.
  - apply keeps_perform. exact I.
  - apply unchanged_history_refl.
Qed.

Lemma settles_execute_command command : settles (execute_command command).
Proof.
  unfold execute_command. apply settles_bind; [auto with menu|].
  intros line. destruct (says_yes _); auto with menu.
Qed.

Lemma settles_save_as_script command :
  settles (save_as_script clk command).
Proof.
  unfold save_as_script. apply settles_bind; [auto with menu|].
  intros line. destruct (says_yes _); [|auto with menu].
  repeat (apply settles_bind; [auto with menu | intros ?]).
  intros inp b. destruct (scripts_writable b);
    [apply settles_perform | apply settles_ret].
Qed.

Lemma settles_copy_to_clipboard command :
  settles (copy_to_clipboard command).
Proof.
  intros inp b. unfold copy_to_clipboard.
  destruct (clipboard b);
    [apply settles_ret | apply settles_perform
    | split; [discriminate | apply le_n]].
Qed.

(** The menu never writes the history file, for any number of rounds. *)
Lemma keeps_options_menu (fuel : nat) :
  forall command, keeps_history (options_menu clk fuel command).
Proof.
  induction fuel as [|fuel IH]; intros command; cbn [options_menu].
  - apply keeps_pending.
  - apply keeps_bind; [apply keeps_input|]. intros line. cbv zeta.
    assert (Hnext : forall c, keeps_history (input ;;; options_menu clk fuel c))
      by (intros c; apply keeps_bind; [apply keeps_input | intros _; apply IH]).
    destruct (String.eqb (strip line) "1");
      [apply keeps_bind; [apply keeps_execute_command | intros _; apply Hnext]|].
    destruct (String.eqb (strip line) "2");
      [apply keeps_bind; [apply keeps_save_as_script | intros _; apply Hnext]|].
    destruct (String.eqb (strip line) "3");
      [apply keeps_bind; [apply keeps_copy_to_clipboard | intros _; apply Hnext]|].
    destruct (String.eqb (strip line) "4").
    { apply keeps_bind; [apply keeps_input|]. intros line2. cbv zeta.
      destruct (truthy (strip line2)); apply IH. }
    destruct (String.eqb (strip line) "5"); [apply keeps_ret | apply Hnext].
Qed.

(** With more rounds allowed than lines left to read, the menu ends: it
    returns, or [input] raises at the end of the lines. *)
Lemma options_menu_ends (fuel : nat) :
  forall command inp b,
    length inp < fuel ->
    outcome_of (options_menu clk fuel command inp b) <> Pending.
Proof.
  induction fuel as [|fuel IH]; intros command inp b Hlen; [lia|].
  cbn [options_menu].
  destruct inp as [|line rest]; [discriminate|].
  unfold bind at 1. cbn [input]. simpl in Hlen.
  assert (Hnext : forall c (u : unit) inp' b',
             length inp' <= length rest ->
             outcome_of (bind input (fun _ => options_menu clk fuel c) inp' b')
             <> Pending).
  { intros c _ inp' b' Hle. destruct inp' as [|l r]; [discriminate|].
    unfold bind. cbn [input]. apply IH. simpl in Hle. lia. }
  repeat match goal with
         | |- outcome_of ((if ?c then _ else _) _ _) <> _ => destruct c
         end.
  - apply bind_not_pending; [apply settles_execute_command | apply Hnext].
  - apply bind_not_pending; [apply settles_save_as_script | apply Hnext].
  - apply bind_not_pending; [apply settles_copy_to_clipboard | apply Hnext].
  - destruct rest as [|l r]; [discriminate|].
    unfold bind. cbn [input]. simpl in Hlen.
    destruct (truthy _); apply IH; lia.
  - discriminate.
  - apply (Hnext command tt). apply le_n.
Qed.

(** [save_command_history] reads no line. *)
Lemma save_command_history_returns command inp b :
  save_command_history clk command inp b
  = (outcome_of (save_command_history clk command [] b),
     builder_of (save_command_history clk command [] b), inp).
Proof.
  unfold save_command_history, history_writable.
  destruct (storage b) eqn:Hs; simpl; rewrite ?Hs; reflexivity.
Qed.

Lemma save_command_history_ok command b :
  history_writable b = true ->
  outcome_of (save_command_history clk command [] b) = Returned tt.
Proof.
  intros Hw. now rewrite (save_command_history_writable clk command [] b Hw).
Qed.


End PostBuild.

Lemma bind_input_cons {B} (k : string -> M B) line inp b :
  bind input k (line :: inp) b = k line inp b.
Proof. reflexivity. Qed.

Lemma bind_returned {A B} (m : M A) (k : A -> M B) inp b a b' inp' :
  m inp b = (Returned a, b', inp') -> bind m k inp b = k a inp' b'.
Proof. intros H. unfold bind. now rewrite H. Qed.

(** What [save_command_history] leaves behind when the file can be
    written. *)
Lemma saved_builder_facts (clk : Clock) (command : string) (b : Builder) :
  history_writable b = true ->
  let h := append_entry (load_history (history_file b))
             (Entry (isoformat clk (ticks b)) command
                    (target (command_parts b))) in
  let saved := builder_of (save_command_history clk command [] b) in
  history_file saved = Stored h
  /\ command_parts saved = command_parts b
  /\ effects saved = effects b ++ [HistoryWritten h].
Proof.
  intros Hw h saved. subst saved h.
  rewrite (save_command_history_writable clk command [] b Hw).
  repeat split.
Qed.

Lemma show_command_history_builder (inp : list string) (b : Builder) :
  builder_of (show_command_history inp b) = b.
Proof.
  unfold show_command_history.
  destruct (history_file b) as [| |[|h0 hs]]; try reflexivity.
  destruct inp as [|line rest]; [reflexivity|].
  rewrite bind_input_cons.
  destruct (isdigit (strip line)); [|reflexivity].
  destruct (py_int (strip line)) as [i|]; [|reflexivity].
  destruct ((1 <=? i) && _)%Z; [|reflexivity].
  destruct (py_index _ _); reflexivity.
Qed.

(** What option 2 of the menu does after the answer y when scripts can be
    written. *)
Lemma save_as_script_yes (clk : Clock) c name rest b :
  scripts_writable b = true ->
  save_as_script clk c ("y" :: name :: rest) b
  = (Returned tt,
     emit (ScriptSaved
             (if endswith ".sh"
                   (if truthy (strip name) then strip name
                    else ("nmap_scan_" ++ stamp clk (ticks b) ++ ".sh")%string)
              then (if truthy (strip name) then strip name
                    else ("nmap_scan_" ++ stamp clk (ticks b) ++ ".sh")%string)
              else ((if truthy (strip name) then strip name
                     else ("nmap_scan_" ++ stamp clk (ticks b) ++ ".sh")%string)
                    ++ ".sh")%string)
             (script_text (long_date clk (S (ticks b))) c))
          (tick (tick b)),
     rest).
Proof.
  intros Hw. unfold save_as_script. rewrite bind_input_cons. cbv zeta.
  change (says_yes (lower (strip "y"))) with true. cbv iota.
  unfold bind, now, input.
  change (scripts_writable (tick (tick b))) with (scripts_writable b).
  now rewrite Hw.
Qed.

(** C10: the history file is written once, by [save_command_history]
    before the first line of the menu is read, with the command as it
    entered; the menu adds no further write, so a later edit (option 4)
    changes the command that option 1 executes, option 2 saves as a script
    and option 3 copies, and not the stored one. With more rounds allowed
    than lines left, the call ends. *)
Theorem history_written_once_before_menu :
  forall (clk : Clock) (fuel : nat) (command : string) (inp : list string)
         (b : Builder),
    history_writable b = true ->
    let h := append_entry (load_history (history_file b))
               (Entry (isoformat clk (ticks b)) command
                      (target (command_parts b))) in
    let saved := builder_of (save_command_history clk command [] b) in
    let r := process_built_command clk fuel command inp b in
    r = options_menu clk fuel command inp saved
    /\ history_file saved = Stored h
    /\ history_file (builder_of r) = Stored h
    /\ (exists log,
          effects (builder_of r) = effects b ++ HistoryWritten h :: log
          /\ Forall quiet log)
    /\ (forall fuel' line rest b1,
          truthy (strip line) = true ->
          options_menu clk (S fuel') command ("4" :: line :: rest) b1
          = options_menu clk fuel' (strip line) rest b1)
    /\ (forall fuel' c enter rest b1,
          options_menu clk (S fuel') c ("1" :: "y" :: enter :: rest) b1
          = options_menu clk fuel' c rest (emit (Executed (split_ws c)) b1))
    /\ (forall fuel' c name enter rest b1,
          scripts_writable b1 = true ->
          let typed :=
            if truthy (strip name) then strip name
            else ("nmap_scan_" ++ stamp clk (ticks b1) ++ ".sh")%string in
          let script_name :=
            if endswith ".sh" typed then typed else (typed ++ ".sh")%string in
          options_menu clk (S fuel') c ("2" :: "y" :: name :: enter :: rest) b1
          = options_menu clk fuel' c rest
              (emit (ScriptSaved script_name
                       (script_text (long_date clk (S (ticks b1))) c))
                    (tick (tick b1))))
    /\ (forall fuel' c enter rest b1,
          clipboard b1 = ClipboardWorks ->
          options_menu clk (S fuel') c ("3" :: enter :: rest) b1
          = options_menu clk fuel' c rest (emit (Copied c) b1))
    /\ (length inp < fuel -> outcome_of r <> Pending).
Proof.
  intros clk fuel command inp b Hw h saved r.
  destruct (saved_builder_facts clk command b Hw) as (Hfile & _ & Heff).
  fold h saved in Hfile, Heff.
  assert (Hr : r = options_menu clk fuel command inp saved).
  { subst r. unfold process_built_command.
    unfold bind.
    now rewrite save_command_history_returns, save_command_history_ok. }
  destruct (keeps_options_menu clk fuel command inp saved)
    as (Hf & _ & _ & log & Hlog & Hquiet).
  split; [exact Hr|]. split; [exact Hfile|]. rewrite Hr.
  split; [congruence|]. split.
  { exists log. split; [|exact Hquiet].
    rewrite Hlog, Heff, <- app_assoc. reflexivity. }
  split.
  { intros fuel' line rest b1 Hne. cbn [options_menu].
    rewrite bind_input_cons. change (strip "4") with "4".
    cbn [String.eqb Ascii.eqb Bool.eqb].
    rewrite bind_input_cons. now rewrite Hne. }
  split; [reflexivity|]. split.
  { intros fuel' c name enter rest b1 Hscripts typed script_name.
    cbn [options_menu].
    rewrite bind_input_cons. change (strip "2") with "2".
    cbn [String.eqb Ascii.eqb Bool.eqb].
    unfold bind at 1.
    rewrite (save_as_script_yes clk c name (enter :: rest) b1 Hscripts).
    reflexivity. }
  split.
  { intros fuel' c enter rest b1 Hclip. cbn [options_menu].
    rewrite bind_input_cons. change (strip "3") with "3".
    cbn [String.eqb Ascii.eqb Bool.eqb].
    unfold bind, copy_to_clipboard. rewrite Hclip. reflexivity. }
  intros Hlen. now apply options_menu_ends.
Qed.

Lemma history_written_once_before_menu_witness :
  let b := new_builder Missing true true in
  let inp := ["4"; "nmap -sn 1.1.1.1"; "1"; "y"; ""; "5"] in
  history_writable b = true
  /\ history_file
       (builder_of (process_built_command sample_clock 10 "nmap -sS 10.0.0.1"
                      inp b))
     = Stored
         (append_entry (load_history (history_file b))
            (Entry (isoformat sample_clock (ticks b)) "nmap -sS 10.0.0.1"
                   (target (command_parts b)))).
Proof.
  intros b inp. split; [reflexivity|].
  destruct (@history_written_once_before_menu sample_clock 10
              "nmap -sS 10.0.0.1" inp b eq_refl) as (_ & _ & Hfile & _).
  exact Hfile.
Defined.

(** A command is built, edited in the menu, executed, copied and saved as a
    script: the three actions use the edited command, the history holds the
    one that entered the menu. *)
Example edited_command_is_not_stored :
  let b := new_builder Missing true true in
  let r := process_built_command sample_clock 10 "nmap -sS 10.0.0.1"
             ["4"; "nmap -sn 1.1.1.1"; "1"; "y"; ""; "3"; "";
              "2"; "yes"; "scan"; ""; "5"] b in
  outcome_of r = Returned tt
  /\ history_file (builder_of r)
     = Stored [Entry "2025-01-01T00:00:00" "nmap -sS 10.0.0.1" ""]
  /\ effects (builder_of r)
     = [ HistoryWritten [Entry "2025-01-01T00:00:00" "nmap -sS 10.0.0.1" ""];
         Executed ["nmap"; "-sn"; "1.1.1.1"];
         Copied "nmap -sn 1.1.1.1";
         ScriptSaved "scan.sh"
           (script_text "2025-01-01 00:00:02" "nmap -sn 1.1.1.1") ].
Proof. repeat split. Qed.

(** ** Templates and history reuse *)

(** C9: a command that comes from a template or from the history view is
    stored with the target that the builder's parts hold at that moment,
    whatever target the command itself names; neither path changes the
    parts, which are only set by [build_new_command]. *)
Theorem reused_command_keeps_leftover_target :
  forall (clk : Clock) (fuel : nat) (b : Builder),
    history_writable b = true ->
    let stored cmd :=
      Stored (append_entry (load_history (history_file b))
                (Entry (isoformat clk (ticks b)) cmd
                       (target (command_parts b)))) in
    (forall line1 line2 inp tpl,
        lookup (strip line1) templates = Some tpl ->
        truthy (strip line2) = true ->
        let r := quick_templates clk fuel (line1 :: line2 :: inp) b in
        history_file (builder_of r)
        = stored (format_target (command_pattern tpl) (strip line2))
        /\ command_parts (builder_of r) = command_parts b)
    /\ (forall inp cmd,
          outcome_of (show_command_history inp b) = Returned (Some cmd) ->
          truthy cmd = true ->
          let r := main_menu_choice clk fuel "2" inp b in
          history_file (builder_of r) = stored cmd
          /\ command_parts (builder_of r) = command_parts b).
Proof.
  intros clk fuel b Hw stored.
  assert (Hafter : forall cmd (tail : unit -> M unit) inp,
             (forall u, keeps_history (tail u)) ->
             let r := bind (process_built_command clk fuel cmd) tail inp b in
             history_file (builder_of r) = stored cmd
             /\ command_parts (builder_of r) = command_parts b).
  { intros cmd tail inp Htail r. subst r.
    destruct (saved_builder_facts clk cmd b Hw) as (Hfile & Hparts & _).
    assert (Hrun : bind (process_built_command clk fuel cmd) tail inp b
                   = bind (options_menu clk fuel cmd) tail inp
                       (builder_of (save_command_history clk cmd [] b))).
    { unfold process_built_command. rewrite bind_assoc.
      unfold bind at 1.
      now rewrite save_command_history_returns, save_command_history_ok. }
    rewrite Hrun.
    destruct (@keeps_bind unit unit (options_menu clk fuel cmd) tail
                (keeps_options_menu clk fuel cmd) Htail inp
                (builder_of (save_command_history clk cmd [] b)))
      as (Hf & _ & Hp & _).
    split; [rewrite Hf; exact Hfile | rewrite Hp; exact Hparts]. }
  split.
  - intros line1 line2 inp tpl Htpl Htarget r. subst r.
    unfold quick_templates. rewrite bind_input_cons. cbv zeta.
    rewrite Htpl, bind_assoc, bind_input_cons, Htarget.
    apply Hafter. intros _.
    destruct (truthy (strip line1)); auto with menu.
  - intros inp cmd Hsel Hcmd r. subst r.
    pose proof (show_command_history_builder inp b) as Hb.
    destruct (show_command_history inp b) as [[o b1] inp1] eqn:Hrun.
    unfold outcome_of, builder_of in Hsel, Hb. simpl in Hsel, Hb. subst o b1.
    assert (Hchoice : main_menu_choice clk fuel "2" inp b
                      = process_built_command clk fuel cmd inp1 b).
    { unfold main_menu_choice. cbn [String.eqb Ascii.eqb Bool.eqb].
      unfold bind at 1. now rewrite Hrun, Hcmd. }
    rewrite Hchoice.
    destruct (Hafter cmd (fun _ => ret tt) inp1 (fun _ => keeps_ret tt))
      as [H1 H2].
    unfold bind in H1, H2.
    destruct (process_built_command clk fuel cmd inp1 b) as [[[u|e|] b2] inp2];
      split; assumption.
Qed.

Lemma reused_command_keeps_leftover_target_witness :
  let b := with_parts (set_target "10.0.0.1" empty_parts)
             (new_builder (Stored (sample_history 3)) true true) in
  let tpl := Opt "Quick Host Discovery" "nmap -sn {target}"
                 "Fast ping scan to discover live hosts" in
  history_writable b = true
  /\ lookup (strip "1") templates = Some tpl
  /\ truthy (strip "192.168.1.9") = true
  /\ history_file
       (builder_of (quick_templates sample_clock 10
                      ["1"; "192.168.1.9"; "5"; ""] b))
     = Stored (append_entry (load_history (history_file b))
                 (Entry (isoformat sample_clock (ticks b))
                        (format_target (command_pattern tpl)
                                       (strip "192.168.1.9"))
                        (target (command_parts b)))).
Proof.
  intros b tpl. repeat (split; [reflexivity|]).
  destruct (@reused_command_keeps_leftover_target sample_clock 10 b eq_refl)
    as [Htemplate _].
  apply (Htemplate "1" "192.168.1.9" ["5"; ""] tpl eq_refl eq_refl).
Defined.

(** In a new session a template command is stored with an empty target. *)
Example template_in_new_session :
  let r := quick_templates sample_clock 10 ["7"; "example.com"; "5"; ""]
             (new_builder Missing true true) in
  outcome_of r = Returned tt
  /\ history_file (builder_of r)
     = Stored [Entry "2025-01-01T00:00:00"
                     "nmap -p 80,443 -sV --script=http-* example.com" ""].
Proof. split; reflexivity. Qed.

(** One session: a command is built for 10.0.0.1, then a template is used
    for 192.168.1.9, then the last command is taken again from the history
    view; the two reused commands are stored with the target 10.0.0.1. *)
Example leftover_target_in_a_session :
  let r := main_menu sample_clock 20
             [ "1"; "1"; "10.0.0.1"; "1"; ""; ""; ""; ""; "5";
               "3"; "1"; "192.168.1.9"; "5"; "";
               "2"; "10"; "5";
               "5" ]
             (new_builder (Stored (sample_history 10)) true true) in
  outcome_of r = Raised (SystemExit 0)
  /\ map (fun e => (command e, entry_target e))
         (last_slice 3 (load_history (history_file (builder_of r))))
     = [ ("nmap -sS 10.0.0.1", "10.0.0.1");
         ("nmap -sn 192.168.1.9", "10.0.0.1");
         ("nmap -sn 192.168.1.9", "10.0.0.1") ].
Proof. split; reflexivity. Qed.

(** * Further properties of the code *)

(** ** Single port and port list *)






(** ** The history view and the choice of an entry *)

Lemma enumerate_snd {A} (l : list A) :
  forall start, map snd (enumerate start l) = l.
Proof.
  induction l as [|x r IH]; intros start; simpl; [reflexivity|].
  now rewrite IH.
Qed.

Lemma enumerate_fst {A} (l : list A) :
  forall start,
    map fst (enumerate start l)
    = map (fun k => (start + Z.of_nat k)%Z) (seq 0 (length l)).
Proof.
  induction l as [|x r IH]; intros start; simpl; [reflexivity|].
  rewrite IH, <- seq_shift, map_map. f_equal; [f_equal; lia|].
  apply map_ext. intros k. lia.
Qed.

Lemma enumerate_In {A} (l : list A) (start i : Z) (x : A) :
  In (i, x) (enumerate start l)
  <-> exists k, nth_error l k = Some x /\ i = (start + Z.of_nat k)%Z.
Proof.
  split.
  - intros Hin. apply In_nth_error in Hin. destruct Hin as [k Hk].
    rewrite enumerate_nth in Hk. exists k.
    destruct (nth_error l k) as [y|]; [|discriminate].
    simpl in Hk. injection Hk as Hi Hy. subst. split; reflexivity.
  - intros [k [Hk Hi]]. apply nth_error_In with (n := k).
    rewrite enumerate_nth, Hk, Hi. reflexivity.
Qed.

(** X3: the history view shows the last ten entries, or all of them when
    there are fewer, in stored order and numbered from 1: the entry under
    number [i] is the one at position [L - k + i - 1], where [k] is the
    number of lines shown. *)
Theorem history_view_numbers :
  forall (history : list HistoryEntry),
    let k := min 10 (length history) in
    map snd (history_view history) = last_slice 10 history
    /\ map fst (history_view history) = map Z.of_nat (seq 1 k)
    /\ forall i e,
        In (i, e) (history_view history)
        <-> (1 <= i <= Z.of_nat k)%Z
            /\ nth_error history (length history - k + Z.to_nat i - 1)
               = Some e.
Proof.
  intros history k. unfold history_view.
  assert (Hlen : length (last_slice 10 history) = k)
    by apply last_slice_length.
  split; [apply enumerate_snd|]. split.
  - rewrite enumerate_fst, Hlen, <- seq_shift, map_map.
    apply map_ext. intros n. lia.
  - intros i e. rewrite enumerate_In. unfold last_slice in *.
    split.
    + intros [n [Hn Hi]].
      assert (Hlt : n < k).
      { rewrite <- Hlen. apply nth_error_Some. congruence. }
      rewrite nth_error_skipn in Hn. split; [lia|].
      rewrite <- Hn. f_equal. unfold k in *. lia.
    + intros [Hi He]. exists (Z.to_nat i - 1). split; [|lia].
      rewrite nth_error_skipn, <- He. f_equal. unfold k in *. lia.
Qed.



(** X5: a line that is not made of digits, or a number below 1 or above
    the number of lines shown, selects nothing: the line is consumed and
    no command is returned. *)
Theorem selection_out_of_range :
  forall (line : string) (inp : list string) (b : Builder)
         (history : list HistoryEntry),
    history_file b = Stored history ->
    history <> [] ->
    (isdigit (strip line) = false
     \/ exists i, py_int (strip line) = Some i
                  /\ (i < 1 \/ Z.of_nat (min 10 (length history)) < i)%Z) ->
    show_command_history (line :: inp) b = (Returned None, b, inp).
Proof.
  intros line inp b history Hfile Hne Hbad.
  unfold show_command_history. rewrite Hfile.
  destruct history as [|h0 hs]; [congruence|].
  rewrite bind_input_cons.
  destruct Hbad as [Hnd | [i [Hi Hout]]].
  - now rewrite Hnd.
  - rewrite Hi. destruct (isdigit (strip line)); [|reflexivity].
    replace ((1 <=? i) && (i <=? Z.of_nat (min 10 (length (h0 :: hs)))))%Z
      with false; [reflexivity|].
    symmetry. apply andb_false_iff. rewrite !Z.leb_gt. lia.
Qed.

Lemma selection_out_of_range_witness :
  let b := new_builder (Stored (sample_history 3)) true true in
  show_command_history ["4"; "x"] b = (Returned None, b, ["x"])
  /\ show_command_history ["0"; "x"] b = (Returned None, b, ["x"])
  /\ show_command_history ["-1"; "x"] b = (Returned None, b, ["x"]).
Proof.
  intros b. split; [|split].
  - apply (@selection_out_of_range "4" ["x"] b (sample_history 3));
      [reflexivity | discriminate |].
    right. exists 4%Z. split; [reflexivity | vm_compute; right; reflexivity].
  - apply (@selection_out_of_range "0" ["x"] b (sample_history 3));
      [reflexivity | discriminate |].
    right. exists 0%Z. split; [reflexivity | left; lia].
  - apply (@selection_out_of_range "-1" ["x"] b (sample_history 3));
      [reflexivity | discriminate | left; reflexivity].
Defined.

(** X6: for a number [i] of the view, the entry taken is the one at
    position [L + i - 11] counted from the start; when [L + i] is below 11,
    which needs fewer than ten entries, the index falls before the start
    of the list and [IndexError] is raised. *)
Theorem selection_index :
  forall (line : string) (inp : list string) (b : Builder)
         (history : list HistoryEntry) (i : Z),
    history_file b = Stored history ->
    isdigit (strip line) = true ->
    py_int (strip line) = Some i ->
    (1 <= i <= Z.of_nat (min 10 (length history)))%Z ->
    ((Z.of_nat (length history) + i < 11)%Z ->
     show_command_history (line :: inp) b = (Raised IndexError, b, inp))
    /\ ((11 <= Z.of_nat (length history) + i)%Z ->
        exists e,
          nth_error history (length history + Z.to_nat i - 11) = Some e
          /\ show_command_history (line :: inp) b
             = (Returned (Some (command e)), b, inp)).
Proof.
  intros line inp b history i Hfile Hdig Hint Hi.
  assert (Hrun : show_command_history (line :: inp) b
                 = match py_index history (- (11 - i))%Z with
                   | Some e => (Returned (Some (command e)), b, inp)
                   | None => (Raised IndexError, b, inp)
                   end).
  { unfold show_command_history. rewrite Hfile.
    destruct history as [|h0 hs]; [simpl in Hi; lia|].
    rewrite bind_input_cons, Hdig, Hint.
    replace ((1 <=? i) && (i <=? Z.of_nat (min 10 (length (h0 :: hs)))))%Z
      with true
      by (symmetry; apply andb_true_iff; split; apply Z.leb_le; lia).
    destruct (py_index _ _); reflexivity. }
  rewrite Hrun. split.
  - intros Hshort. unfold py_index.
    destruct (Z.ltb_spec (- (11 - i)) 0); [|lia].
    destruct (Z.leb_spec 0 (Z.of_nat (length history) + - (11 - i)));
      [lia | reflexivity].
  - intros Hlong.
    replace (- (11 - i))%Z with (- Z.of_nat (11 - Z.to_nat i))%Z by lia.
    rewrite py_index_from_end by lia.
    replace (length history - (11 - Z.to_nat i))
      with (length history + Z.to_nat i - 11) by lia.
    destruct (nth_error history (length history + Z.to_nat i - 11))
      as [e|] eqn:He.
    + exists e. split; reflexivity.
    + apply nth_error_None in He. lia.
Qed.

Lemma selection_index_witness :
  let b := new_builder (Stored (sample_history 7)) true true in
  show_command_history ["3"; "x"] b = (Raised IndexError, b, ["x"])
  /\ exists e,
      nth_error (sample_history 7) (7 + Z.to_nat 5 - 11) = Some e
      /\ show_command_history ["5"; "x"] b
         = (Returned (Some (command e)), b, ["x"]).
Proof.
  intros b. split.
  - apply (@selection_index "3" ["x"] b (sample_history 7) 3%Z);
      try reflexivity; vm_compute; try lia; split; discriminate.
  - apply (@selection_index "5" ["x"] b (sample_history 7) 5%Z);
      try reflexivity; vm_compute; try lia; try (split; discriminate).
    discriminate.
Defined.

(** With seven entries stored, number 5 of the view shows the entry at
    position 4 and selects the one at position 1. *)
Example shown_and_selected_differ :
  let history := sample_history 7 in
  let b := new_builder (Stored history) true true in
  option_map (fun p => command (snd p)) (nth_error (history_view history) 4)
  = Some "nmap -sn 10.0.0.4"
  /\ outcome_of (show_command_history ["5"] b)
     = Returned (Some "nmap -sn 10.0.0.1").
Proof. split; reflexivity. Qed.

(** ** Digits and integers *)

Lemma digit_is_not_space (c : ascii) :
  is_digit c = true -> is_space c = false.
Proof.
  unfold is_digit, is_space. intros H.
  apply andb_true_iff in H. destruct H as [H1 H2].
  apply Nat.leb_le in H1. apply Nat.leb_le in H2.
  repeat match goal with
         | |- context [?x <=? ?y] => destruct (Nat.leb_spec x y)
         | |- context [?x =? ?y] => destruct (Nat.eqb_spec x y)
         end; simpl; try reflexivity; lia.
Qed.

Lemma lstrip_digits (l : list ascii) :
  match l with [] => True | c :: _ => is_digit c = true end ->
  lstrip_chars l = l.
Proof.
  destruct l as [|c r]; [reflexivity|]. intros Hc. simpl.
  now rewrite (digit_is_not_space c Hc).
Qed.

Lemma strip_digits (l : list ascii) :
  forallb is_digit l = true ->
  rstrip_chars (lstrip_chars l) = l.
Proof.
  intros Hall.
  assert (Hhead : forall l', forallb is_digit l' = true ->
                             lstrip_chars l' = l').
  { intros l' Hl'. apply lstrip_digits. destruct l' as [|c r]; [exact I|].
    simpl in Hl'. now apply andb_true_iff in Hl'. }
  rewrite (Hhead l Hall). unfold rstrip_chars.
  rewrite Hhead, rev_involutive; [reflexivity|].
  rewrite forallb_forall in *. intros c Hc. apply Hall.
  now apply in_rev.
Qed.

Lemma digits_value_of_digits (l : list ascii) :
  forall acc seen,
    forallb is_digit l = true ->
    (0 <= acc)%Z ->
    l <> [] \/ seen = true ->
    exists n, digits_value acc seen l = Some n /\ (0 <= n)%Z.
Proof.
  induction l as [|c r IH]; intros acc seen Hall Hacc Hne.
  - destruct Hne as [Hne | ->]; [congruence|]. now exists acc.
  - simpl in Hall. apply andb_true_iff in Hall. destruct Hall as [Hc Hr].
    cbn [digits_value]. rewrite Hc. apply IH; [exact Hr | | now right].
    unfold digit_value. lia.
Qed.

Lemma unsigned_literal (c : ascii) (r : list ascii) :
  is_digit c = true ->
  match c :: r with
  | "-"%char :: r' => option_map Z.opp (digits_value 0 false r')
  | "+"%char :: r' => digits_value 0 false r'
  | _ => digits_value 0 false (c :: r)
  end = digits_value 0 false (c :: r).
Proof.
  destruct c as [[] [] [] [] [] [] [] []]; intros H;
    try reflexivity; discriminate.
Qed.

(** A string of at most [max_str_digits] ASCII digits is always read by
    [int], as a number that is not negative. *)
Lemma isdigit_has_int (s : string) :
  isdigit s = true ->
  (Z.of_nat (length (list_ascii_of_string s)) <= max_str_digits)%Z ->
  exists n, py_int s = Some n /\ (0 <= n)%Z.
Proof.
  intros Hd Hshort. unfold isdigit in Hd. apply andb_true_iff in Hd.
  destruct Hd as [Hne Hall].
  unfold py_int, strip.
  rewrite (strip_digits _ Hall), list_ascii_of_string_of_list_ascii.
  cbv zeta.
  destruct (Z.ltb_spec max_str_digits
              (count_digits (list_ascii_of_string s))) as [Hlong|_].
  { unfold count_digits in Hlong.
    pose proof (filter_length_le is_digit (list_ascii_of_string s)). lia. }
  destruct s as [|c s']; [discriminate|].
  cbn [list_ascii_of_string] in *.
  assert (Hc : is_digit c = true)
    by (simpl in Hall; now apply andb_true_iff in Hall).
  rewrite (unsigned_literal c _ Hc).
  apply digits_value_of_digits; [exact Hall | lia | left; discriminate].
Qed.

(** Digits beyond the limit are digits that [int] does not read. *)
Example digits_beyond_the_limit :
  let s := string_of_list_ascii (repeat "9"%char 4301) in
  isdigit s = true /\ py_int s = None
  /\ outcome_of (show_command_history [s]
                   (new_builder (Stored (sample_history 3)) true true))
     = Raised ValueError.
Proof. vm_compute. repeat split. Qed.

(** ** Templates *)

(** X7: every template is the tool name, fixed options and the placeholder
    at the end, and instantiating it puts the target, as typed, in the
    place of the placeholder and changes nothing else. *)
Theorem template_instantiation :
  forall (key target : string) (tpl : OptionDescriptor),
    lookup key templates = Some tpl ->
    exists options,
      command_pattern tpl = ("nmap " ++ options ++ " {target}")%string
      /\ format_target (command_pattern tpl) target
         = ("nmap " ++ options ++ " " ++ target)%string.
Proof.
  intros key target tpl Hlookup.
  exists (String.substring 5 (String.length (command_pattern tpl) - 14)
            (command_pattern tpl)).
  revert Hlookup. unfold templates, lookup.
  repeat (destruct (String.eqb key _);
          [intros H; injection H as <-; split;
           [reflexivity
           | unfold format_target; simpl; now rewrite string_app_nil_r]|]).
  discriminate.
Qed.

Lemma template_instantiation_witness :
  exists options,
    command_pattern (Opt "Stealth Scan" "nmap -sS -T1 -f {target}"
                         "Slow, fragmented SYN scan for IDS evasion")
    = ("nmap " ++ options ++ " {target}")%string
    /\ format_target
         (command_pattern (Opt "Stealth Scan" "nmap -sS -T1 -f {target}"
                               "Slow, fragmented SYN scan for IDS evasion"))
         "10.0.0.0/24 {target}"
       = ("nmap " ++ options ++ " " ++ "10.0.0.0/24 {target}")%string.
Proof.
  apply (@template_instantiation "4" "10.0.0.0/24 {target}"). reflexivity.
Defined.

(** X8: without a known template key, or with a blank target for a known
    one, [quick_templates] processes no command: the builder, its history
    file and its effects stay as they were. *)
Theorem template_needs_key_and_target :
  forall (clk : Clock) (fuel : nat) (line1 : string) (inp : list string)
         (b : Builder),
    lookup (strip line1) templates = None
    \/ (exists line2 inp', inp = line2 :: inp' /\ strip line2 = "") ->
    builder_of (quick_templates clk fuel (line1 :: inp) b) = b
    /\ outcome_of (quick_templates clk fuel (line1 :: inp) b) <> Pending.
Proof.
  intros clk fuel line1 inp b Hcase.
  unfold quick_templates. rewrite bind_input_cons. cbv zeta.
  destruct Hcase as [Hnone | [line2 [inp' [-> Hblank]]]].
  - rewrite Hnone. unfold bind, ret, input.
    destruct (truthy (strip line1)); [|split; [reflexivity | discriminate]].
    destruct inp; (split; [reflexivity | discriminate]).
  - destruct (lookup (strip line1) templates) as [tpl|].
    + rewrite bind_assoc, bind_input_cons, Hblank. unfold bind, ret, input.
      destruct (truthy (strip line1)); [|split; [reflexivity | discriminate]].
      destruct inp'; (split; [reflexivity | discriminate]).
    + unfold bind, ret, input.
      destruct (truthy (strip line1)); [|split; [reflexivity | discriminate]].
      split; [reflexivity | discriminate].
Qed.

Lemma template_needs_key_and_target_witness :
  let b := new_builder (Stored (sample_history 2)) true true in
  builder_of (quick_templates sample_clock 5 ["3"; "   "; ""] b) = b
  /\ builder_of (quick_templates sample_clock 5 ["9"; ""] b) = b.
Proof.
  intros b. split.
  - apply (@template_needs_key_and_target sample_clock 5 "3" ["   "; ""] b).
    right. exists "   ", [""]. split; reflexivity.
  - apply (@template_needs_key_and_target sample_clock 5 "9" [""] b).
    left. reflexivity.
Defined.

(** ** Scripts and child processes *)

Lemma string_length_app (s t : string) :
  String.length (s ++ t) = String.length s + String.length t.
Proof.
  induction s as [|c s IH]; simpl; [reflexivity | now rewrite IH].
Qed.

Lemma substring_all (t : string) :
  String.substring 0 (String.length t) t = t.
Proof.
  induction t as [|c t IH]; simpl; [reflexivity | now rewrite IH].
Qed.

Lemma substring_app_tail (s t : string) :
  String.substring (String.length s) (String.length t) (s ++ t) = t.
Proof.
  induction s as [|c s IH]; simpl; [apply substring_all | exact IH].
Qed.

Lemma endswith_app (s p : string) : endswith p (s ++ p) = true.
Proof.
  unfold endswith. rewrite string_length_app.
  apply andb_true_iff. split; [apply Nat.leb_le; lia|].
  replace (String.length s + String.length p - String.length p)
    with (String.length s) by lia.
  rewrite substring_app_tail. apply String.eqb_refl.
Qed.

Lemma suffix_step (x y z : string) :
  (exists q, y = (q ++ z)%string) -> exists p, (x ++ y)%string = (p ++ z)%string.
Proof.
  intros [q ->]. exists (x ++ q)%string. now rewrite string_app_assoc.
Qed.

(** X9: [save_as_script] writes at most one file and writes it only after
    the answer y or yes; the name of the file always ends in [.sh] and its
    text ends with the command, as given, on a line of its own. Nothing
    else of the builder changes. *)
Theorem script_is_named_sh :
  forall (clk : Clock) (command : string) (inp : list string) (b : Builder),
    let b' := builder_of (save_as_script clk command inp b) in
    unchanged_history b b'
    /\ (effects b' = effects b
        \/ exists line rest script_name created body,
            inp = line :: rest
            /\ says_yes (lower (strip line)) = true
            /\ effects b'
               = effects b
                 ++ [ScriptSaved script_name (script_text created command)]
            /\ endswith ".sh" script_name = true
            /\ script_text created command
               = (body ++ command ++ nl)%string).
Proof.
  intros clk command inp b b'. split; [apply keeps_save_as_script|].
  destruct inp as [|line rest]; [left; reflexivity|].
  destruct (says_yes (lower (strip line))) eqn:Hyes.
  2: { left. subst b'. unfold save_as_script.
       rewrite bind_input_cons. cbv zeta. now rewrite Hyes. }
  destruct rest as [|line2 rest2].
  { left. subst b'. unfold save_as_script.
    rewrite bind_input_cons. cbv zeta. now rewrite Hyes. }
  set (typed := if truthy (strip line2) then strip line2
                else ("nmap_scan_" ++ stamp clk (ticks b) ++ ".sh")%string).
  set (script_name := if endswith ".sh" typed then typed
                      else (typed ++ ".sh")%string).
  set (created := long_date clk (S (ticks b))).
  destruct (scripts_writable b) eqn:Hscripts.
  2: { left. subst b'. unfold save_as_script.
       rewrite bind_input_cons. cbv zeta. rewrite Hyes.
       unfold bind, now, input.
       change (scripts_writable (tick (tick b))) with (scripts_writable b).
       now rewrite Hscripts. }
  assert (Hrun : save_as_script clk command (line :: line2 :: rest2) b
                 = (Returned tt,
                    emit (ScriptSaved script_name (script_text created command))
                         (tick (tick b)),
                    rest2)).
  { unfold save_as_script. rewrite bind_input_cons. cbv zeta.
    rewrite Hyes. unfold bind, now, input.
    change (scripts_writable (tick (tick b))) with (scripts_writable b).
    now rewrite Hscripts. }
  assert (Hbody : exists body,
             script_text created command = (body ++ command ++ nl)%string).
  { unfold script_text.
    repeat (first [ now (exists "") | apply suffix_step ]). }
  destruct Hbody as [body Hbody].
  right. exists line, (line2 :: rest2), script_name, created, body.
  subst b'. rewrite Hrun.
  split; [reflexivity|]. split; [exact Hyes|]. split; [reflexivity|].
  split; [|exact Hbody].
  unfold script_name. destruct (endswith ".sh" typed) eqn:Hsh;
    [exact Hsh | apply endswith_app].
Qed.

Example script_names :
  let b := new_builder Missing true true in
  map (fun name => effects (builder_of
                     (save_as_script sample_clock "nmap -F h" ["Y"; name] b)))
      [ "scan"; "scan.sh"; "" ]
  = [ [ScriptSaved "scan.sh" (script_text "2025-01-01 00:00:01" "nmap -F h")];
      [ScriptSaved "scan.sh" (script_text "2025-01-01 00:00:01" "nmap -F h")];
      [ScriptSaved "nmap_scan_20250101_000000.sh"
         (script_text "2025-01-01 00:00:01" "nmap -F h")] ]
  /\ effects (builder_of (save_as_script sample_clock "nmap -F h" ["no"] b))
     = [].
Proof. split; reflexivity. Qed.

Lemma list_ascii_of_string_app (s t : string) :
  list_ascii_of_string (s ++ t)
  = list_ascii_of_string s ++ list_ascii_of_string t.
Proof.
  induction s as [|c s IH]; simpl; [reflexivity | now rewrite IH].
Qed.

Lemma split_ws_chars_space (l l' : list ascii) (c : ascii) :
  is_space c = true ->
  forall cur,
    split_ws_chars cur (l ++ c :: l')
    = split_ws_chars cur l ++ split_ws_chars [] l'.
Proof.
  intros Hc. induction l as [|d l0 IH]; intros cur.
  - simpl. rewrite Hc. destruct cur; reflexivity.
  - simpl. destruct (is_space d).
    + destruct cur; rewrite IH; reflexivity.
    + apply IH.
Qed.

Lemma split_ws_join (l : list string) :
  split_ws (join " " l) = flat_map split_ws l.
Proof.
  induction l as [|x r IH]; [reflexivity|].
  destruct r as [|y r'].
  - simpl. now rewrite app_nil_r.
  - change (join " " (x :: y :: r'))
      with (x ++ " " ++ join " " (y :: r'))%string.
    change (flat_map split_ws (x :: y :: r'))
      with (split_ws x ++ flat_map split_ws (y :: r')).
    rewrite <- IH. unfold split_ws.
    rewrite list_ascii_of_string_app.
    change (list_ascii_of_string (" " ++ join " " (y :: r')))
      with (" "%char :: list_ascii_of_string (join " " (y :: r'))).
    now apply split_ws_chars_space.
Qed.

Lemma flat_map_split_optional (s : string) :
  flat_map split_ws (if truthy s then [s] else []) = split_ws s.
Proof.
  destruct s; [reflexivity|]. simpl. now rewrite app_nil_r.
Qed.


Lemma split_ws_chars_token (t : list ascii) :
  forall cur,
    forallb (fun c => negb (is_space c)) t = true ->
    rev cur ++ t <> [] ->
    split_ws_chars cur t = [string_of_list_ascii (rev cur ++ t)].
Proof.
  induction t as [|c t IH]; intros cur Hall Hne.
  - rewrite app_nil_r in *. simpl.
    destruct cur; [simpl in Hne; congruence | reflexivity].
  - simpl in Hall. apply andb_true_iff in Hall. destruct Hall as [Hc Ht].
    apply negb_true_iff in Hc. simpl. rewrite Hc.
    rewrite IH; [| exact Ht | simpl; destruct (rev cur); discriminate].
    simpl. now rewrite <- app_assoc.
Qed.

(** Splitting the tokens of a split gives the same tokens. *)
Lemma split_ws_chars_idempotent (l : list ascii) :
  forall cur,
    forallb (fun c => negb (is_space c)) cur = true ->
    flat_map split_ws (split_ws_chars cur l) = split_ws_chars cur l.
Proof.
  assert (Htoken : forall cur,
             forallb (fun c => negb (is_space c)) cur = true ->
             cur <> [] ->
             split_ws (string_of_list_ascii (rev cur))
             = [string_of_list_ascii (rev cur)]).
  { intros cur Hcur Hne. unfold split_ws.
    rewrite list_ascii_of_string_of_list_ascii.
    rewrite (split_ws_chars_token (rev cur) []); [reflexivity | |].
    - rewrite forallb_forall in *. intros c Hin. apply Hcur.
      now apply in_rev.
    - simpl. intros Hrev. apply Hne.
      now rewrite <- (rev_involutive cur), Hrev. }
  induction l as [|c l IH]; intros cur Hcur.
  - simpl. destruct cur as [|d cur']; [reflexivity|].
    cbn [flat_map]. rewrite Htoken; [reflexivity | exact Hcur | discriminate].
  - simpl. destruct (is_space c) eqn:Hc.
    + destruct cur as [|d cur']; [apply IH; reflexivity|].
      cbn [flat_map]. rewrite Htoken; [| exact Hcur | discriminate].
      simpl. f_equal. apply IH. reflexivity.
    + apply IH. simpl. now rewrite Hc, Hcur.
Qed.

Lemma split_ws_idempotent (s : string) :
  flat_map split_ws (split_ws s) = split_ws s.
Proof.
  apply split_ws_chars_idempotent. reflexivity.
Qed.

(** X10: split on white space, as [execute_command] does for the child
    process, a built command is the tool name followed by the tokens of
    the scan type, the ports, the timing, the detection flags, the output,
    the extra options and the target, in this order; an empty part gives
    no argument, and a part with blanks in it gives several. *)
Theorem argv_of_built_command :
  forall (cp : CommandParts),
    split_ws (build_command cp)
    = "nmap" :: split_ws (scan_type cp) ++ split_ws (ports cp)
      ++ split_ws (timing cp) ++ split_ws (detection cp)
      ++ split_ws (output cp) ++ flat_map split_ws (misc_options cp)
      ++ split_ws (target cp).
Proof.
  intros cp. unfold build_command. rewrite split_ws_join. unfold cmd_parts.
  rewrite !flat_map_app, !flat_map_split_optional.
  replace (flat_map split_ws
             (if truthy (detection cp) then split_ws (detection cp) else []))
    with (split_ws (detection cp))
    by (destruct (detection cp); [reflexivity|];
        symmetry; apply split_ws_idempotent).
  replace (flat_map split_ws
             (if truthy (output cp) then split_ws (output cp) else []))
    with (split_ws (output cp))
    by (destruct (output cp); [reflexivity|];
        symmetry; apply split_ws_idempotent).
  destruct (misc_options cp) as [|m ms]; simpl; now rewrite app_nil_r.
Qed.

Example argv_examples :
  split_ws (build_command
              (Parts "-sS" "10.0.0.1 10.0.0.2" "-p 80, 443" "" "" "-oN my scan.nmap"
                     ["-v"]))
  = ["nmap"; "-sS"; "-p"; "80,"; "443"; "-oN"; "my"; "scan.nmap"; "-v";
     "10.0.0.1"; "10.0.0.2"]
  /\ split_ws (build_command (set_scan_type "-sn" empty_parts))
     = ["nmap"; "-sn"].
Proof. split; reflexivity. Qed.

(** ** The steps and the parts they assign *)

Lemma only_parts_refl b : only_parts b b.
Proof. repeat split. Qed.

Lemma step_run_more_input k line inp b r :
  step_run k inp b r -> step_run k (line :: inp) b r.
Proof.
  intros (H1 & H2 & [taken H3] & H4).
  split; [exact H1|]. split; [exact H2|]. split; [|exact H4].
  exists (line :: taken). simpl. now rewrite <- H3.
Qed.

Lemma step_run_eof k inp b : step_run k inp b (Raised EOFError, b, []).
Proof.
  split; [apply only_parts_refl|]. split; [now left|].
  split; [|now right]. exists inp. simpl. now rewrite app_nil_r.
Qed.

Lemma step_run_same k line rest b :
  step_run k (line :: rest) b (Returned tt, b, rest).
Proof.
  split; [apply only_parts_refl|]. split; [now left|].
  split; [|now left]. now exists [line].
Qed.

Lemma step_run_assign k a line rest b :
  key_of a = k ->
  step_run k (line :: rest) b
    (Returned tt, with_parts (assign a (command_parts b)) b, rest).
Proof.
  intros Hk. split; [repeat split|]. split; [right; now exists a|].
  split; [|now left]. now exists [line].
Qed.

Lemma get_scan_type_spec : step_spec KScanType get_scan_type.
Proof.
  intros inp. induction inp as [|line rest IH]; intros b;
    cbn [get_scan_type]; [apply step_run_eof|].
  destruct (lookup (strip line) scan_types) as [d|].
  - now apply (step_run_assign (SetScanType (flag d))).
  - apply step_run_more_input, IH.
Qed.

Lemma get_target_spec : step_spec KTarget get_target.
Proof.
  intros inp. induction inp as [|line rest IH]; intros b;
    cbn [get_target]; [apply step_run_eof|].
  destruct (truthy (strip line)).
  - now apply (step_run_assign (SetTarget (strip line))).
  - apply step_run_more_input, IH.
Qed.

Lemma custom_single_spec : step_spec KPorts custom_single.
Proof.
  intros inp. induction inp as [|line rest IH]; intros b;
    cbn [custom_single]; [apply step_run_eof|].
  destruct (py_int (strip line)) as [p|];
    [destruct (valid_port p)|]; try apply step_run_more_input, IH.
  now apply (step_run_assign (SetPorts ("-p " ++ py_str p)%string)).
Qed.

Lemma custom_list_spec : step_spec KPorts custom_list.
Proof.
  intros inp. induction inp as [|line rest IH]; intros b;
    cbn [custom_list]; [apply step_run_eof|].
  destruct (truthy (strip line));
    [destruct (int_all _) as [ps|]; [destruct (forallb valid_port ps)|]|];
    try apply step_run_more_input, IH.
  now apply (step_run_assign (SetPorts ("-p " ++ strip line)%string)).
Qed.

Lemma custom_range_spec : step_spec KPorts custom_range.
Proof.
  intros inp. remember (length inp) as n eqn:Hn.
  revert inp Hn. induction n as [n IHn] using lt_wf_ind. intros inp Hn b.
  destruct inp as [|line1 [|line2 rest]]; cbn [custom_range];
    try apply step_run_eof.
  assert (Hrest : step_run KPorts (line1 :: line2 :: rest) b
                    (custom_range rest b)).
  { do 2 apply step_run_more_input.
    apply (IHn (length rest)); [subst n; simpl; lia | reflexivity]. }
  destruct (py_int (strip line1)) as [a|]; [|exact Hrest].
  destruct (py_int (strip line2)) as [c|]; [|exact Hrest].
  destruct (valid_port a && valid_port c && (a <=? c)%Z); [|exact Hrest].
  apply step_run_more_input.
  now apply (step_run_assign
               (SetPorts ("-p " ++ py_str a ++ "-" ++ py_str c)%string)).
Qed.

Lemma get_port_specification_spec : step_spec KPorts get_port_specification.
Proof.
  intros inp. induction inp as [|line rest IH]; intros b;
    cbn [get_port_specification]; [apply step_run_eof|].
  destruct (lookup (strip line) port_options) as [d|];
    [|apply step_run_more_input, IH].
  destruct (String.eqb (flag d) "custom_range");
    [apply step_run_more_input, custom_range_spec|].
  destruct (String.eqb (flag d) "custom_list");
    [apply step_run_more_input, custom_list_spec|].
  destruct (String.eqb (flag d) "custom_single");
    [apply step_run_more_input, custom_single_spec|].
  destruct (truthy (flag d)); [|apply step_run_same].
  now apply (step_run_assign (SetPorts (flag d))).
Qed.

Lemma get_timing_template_spec : step_spec KTiming get_timing_template.
Proof.
  intros [|line rest] b; [apply step_run_eof|].
  unfold get_timing_template. rewrite bind_input_cons. cbv zeta.
  destruct (lookup (strip line) timing_templates) as [d|];
    [|apply step_run_same].
  now apply (step_run_assign (SetTiming (flag d))).
Qed.

(** The loop over the detection choices leaves the builder alone; it
    returns the flags or meets the end of the input, and what it leaves
    of the input is what follows the lines it took. *)
Lemma detection_loop_run (choices : list string) :
  forall detection_flags inp b,
    builder_of (detection_loop choices detection_flags inp b) = b
    /\ (exists taken,
          inp = taken
                ++ rest_of (detection_loop choices detection_flags inp b))
    /\ ((exists flags,
            outcome_of (detection_loop choices detection_flags inp b)
            = Returned flags)
        \/ (detection_loop choices detection_flags inp b
            = (Raised EOFError, b, []))).
Proof.
  induction choices as [|c more IH]; intros acc inp b.
  - split; [reflexivity|]. split; [now exists []|]. left. now exists acc.
  - cbn [detection_loop].
    destruct (lookup (strip c) detection_options) as [d|]; [|apply IH].
    destruct (String.eqb (strip c) "9"); [|apply IH].
    destruct inp as [|line rest].
    + split; [reflexivity|]. split; [now exists []|]. now right.
    + rewrite bind_input_cons. cbv zeta.
      destruct (IH (acc ++ [("--script=" ++ strip line)%string]) rest b)
        as (H1 & [taken H2] & H3).
      split; [exact H1|]. split; [|exact H3].
      exists (line :: taken). cbn [app]. f_equal. exact H2.
Qed.

Lemma get_detection_options_spec :
  step_spec KDetection get_detection_options.
Proof.
  intros [|line rest] b; [apply step_run_eof|].
  unfold get_detection_options. rewrite bind_input_cons. cbv zeta.
  destruct (truthy (strip line)); [|apply step_run_same].
  destruct (detection_loop_run (split_on "," (strip line)) [] rest b)
    as (Hb & [taken Htaken] & Hout).
  unfold bind.
  destruct (detection_loop (split_on "," (strip line)) [] rest b)
    as [[o b1] inp1] eqn:Hrun.
  unfold builder_of, rest_of, outcome_of in *. simpl in *. subst b1.
  destruct Hout as [[flags Hflags] | Heof].
  - subst o. unfold step_run, update_parts, builder_of, rest_of, outcome_of.
    simpl. split; [repeat split|].
    split; [right; exists (SetDetection (join " " flags)); split; reflexivity|].
    split; [|left; reflexivity].
    exists (line :: taken). cbn [app]. f_equal. exact Htaken.
  - injection Heof as -> ->. apply step_run_eof.
Qed.

Lemma get_output_options_spec (clk : Clock) :
  step_spec KOutput (get_output_options clk).
Proof.
  intros [|line rest] b; [apply step_run_eof|].
  unfold get_output_options. rewrite bind_input_cons. cbv zeta.
  destruct (lookup (strip line) output_formats) as [f|];
    [|apply step_run_same].
  unfold bind at 1. unfold now at 1. cbv beta iota.
  destruct rest as [|line2 rest2].
  - split; [repeat split|]. split; [now left|].
    split; [now exists [line] | now right].
  - rewrite bind_input_cons. cbv zeta.
    unfold step_run, update_parts, builder_of, rest_of, outcome_of. simpl.
    split; [repeat split|].
    split; [|split; [now exists [line; line2] | left; reflexivity]].
    right. eexists (SetOutput _). split; reflexivity.
Qed.

Lemma get_misc_options_spec : step_spec KMiscOptions get_misc_options.
Proof.
  intros [|line rest] b; [apply step_run_eof|].
  unfold get_misc_options. rewrite bind_input_cons. cbv zeta.
  destruct (truthy (strip line)); [|apply step_run_same].
  now apply (step_run_assign (SetMiscOptions (split_ws (strip line)))).
Qed.

(** X11: each of the seven steps either returns or meets the end of the
    input; the lines it leaves are exactly what follows the lines it took
    from the front of the input; it makes at most one assignment to
    [command_parts], to the part it is named after, and leaves the history
    file, the rest of the world and the effects as they were. *)
Theorem steps_assign_own_part :
  forall (clk : Clock),
    step_spec KScanType get_scan_type
    /\ step_spec KTarget get_target
    /\ step_spec KPorts get_port_specification
    /\ step_spec KTiming get_timing_template
    /\ step_spec KDetection get_detection_options
    /\ step_spec KOutput (get_output_options clk)
    /\ step_spec KMiscOptions get_misc_options.
Proof.
  intros clk.
  split; [apply get_scan_type_spec|].
  split; [apply get_target_spec|].
  split; [apply get_port_specification_spec|].
  split; [apply get_timing_template_spec|].
  split; [apply get_detection_options_spec|].
  split; [apply get_output_options_spec | apply get_misc_options_spec].
Qed.

(** ** An interactive build and its history entry *)

Lemma bind_ext {A B} (m : M A) (k k' : A -> M B) inp b :
  (forall a inp' b', k a inp' b' = k' a inp' b') ->
  bind m k inp b = bind m k' inp b.
Proof.
  intros Hk. unfold bind.
  destruct (m inp b) as [[[a| e |] b1] inp1]; auto.
Qed.

Lemma build_new_command_steps clk fuel inp b :
  build_new_command clk fuel inp b
  = bind (interactive_steps clk)
      (fun _ => bind call_build_command (process_built_command clk fuel))
      inp (with_parts empty_parts b).
Proof.
  unfold build_new_command, interactive_steps.
  unfold bind at 1. unfold update_parts at 1. cbv beta iota.
  repeat (rewrite bind_assoc; apply bind_ext; intros ? ? ?).
  reflexivity.
Qed.

Lemma only_parts_trans b1 b2 b3 :
  only_parts b1 b2 -> only_parts b2 b3 -> only_parts b1 b3.
Proof.
  intros (H1 & H2 & H3 & H4 & H5) (K1 & K2 & K3 & K4 & K5).
  repeat split; congruence.
Qed.

Lemma step_to_bind Q1 Q2 (m1 m2 : M unit) :
  step_to Q1 m1 -> step_to Q2 m2 ->
  step_to (fun c c'' => exists c', Q1 c c' /\ Q2 c' c'') (m1 ;;; m2).
Proof.
  intros H1 H2 inp b.
  destruct (H1 inp b) as (o1 & b1 & inp1 & Hrun1 & Hp1 & Hl1 & Ho1).
  unfold bind. rewrite Hrun1.
  destruct Ho1 as [[-> Hq1] | ->].
  - destruct (H2 inp1 b1) as (o2 & b2 & inp2 & Hrun2 & Hp2 & Hl2 & Ho2).
    exists o2, b2, inp2. split; [exact Hrun2|].
    split; [eapply only_parts_trans; eassumption|]. split; [lia|].
    destruct Ho2 as [[-> Hq2] | ->]; [left | now right].
    split; [reflexivity|]. now exists (command_parts b1).
  - exists (Raised EOFError), b1, inp1.
    split; [reflexivity|]. split; [exact Hp1|]. split; [exact Hl1 | now right].
Qed.

Lemma assign_other_keeps (a : Assignment) (cp : CommandParts) :
  (key_of a <> KTarget -> target (assign a cp) = target cp)
  /\ (key_of a <> KScanType -> scan_type (assign a cp) = scan_type cp).
Proof.
  destruct a; simpl; split; intros H; try reflexivity; congruence.
Qed.

(** What a run that satisfies [step_run] gives as a run of [step_to]. *)
Lemma step_spec_to k (m : M unit) (Q : CommandParts -> CommandParts -> Prop) :
  step_spec k m ->
  (forall inp b b' inp',
      m inp b = (Returned tt, b', inp') ->
      (command_parts b' = command_parts b
       \/ exists a, key_of a = k
                    /\ command_parts b' = assign a (command_parts b)) ->
      Q (command_parts b) (command_parts b')) ->
  step_to Q m.
Proof.
  intros Hspec HQ inp b. specialize (Hspec inp b).
  destruct (m inp b) as [[o b'] inp'] eqn:Hrun.
  destruct Hspec as (Hp & Ha & [taken Hl] & Ho).
  unfold builder_of, rest_of, outcome_of in *. simpl in *.
  exists o, b', inp'. split; [reflexivity|]. split; [exact Hp|].
  split; [rewrite Hl, length_app; lia|].
  destruct Ho as [-> | ->]; [left | now right].
  split; [reflexivity|]. eapply HQ; eassumption.
Qed.

Lemma later_step_to k (m : M unit) :
  step_spec k m -> k <> KTarget -> k <> KScanType ->
  step_to (fun c c' => target c' = target c /\ scan_type c' = scan_type c) m.
Proof.
  intros Hspec Ht Hs. apply (@step_spec_to k m _ Hspec).
  intros inp b b' inp' _ [-> | [a [Ha ->]]]; [split; reflexivity|].
  destruct (assign_other_keeps a (command_parts b)) as [H1 H2].
  split; [apply H1 | apply H2]; congruence.
Qed.

(** When the seven steps return, the scan type and the target are set. *)
Lemma interactive_steps_to (clk : Clock) :
  step_to (fun _ c' => truthy (scan_type c') = true
                       /\ truthy (target c') = true)
          (interactive_steps clk).
Proof.
  assert (H1 : step_to (fun _ c' => truthy (scan_type c') = true)
                 get_scan_type).
  { apply (@step_spec_to _ _ _ get_scan_type_spec).
    intros inp b b' inp' Hrun _. eapply get_scan_type_sets_flag, Hrun. }
  assert (H2 : step_to (fun c c' => truthy (target c') = true
                                    /\ scan_type c' = scan_type c)
                 get_target).
  { apply (@step_spec_to _ _ _ get_target_spec).
    intros inp b b' inp' Hrun Ha.
    split; [eapply get_target_sets_target, Hrun|].
    destruct Ha as [-> | [a [Hk ->]]]; [reflexivity|].
    apply assign_other_keeps. congruence. }
  pose proof (later_step_to get_port_specification_spec) as H3.
  pose proof (later_step_to get_timing_template_spec) as H4.
  pose proof (later_step_to get_detection_options_spec) as H5.
  pose proof (later_step_to (get_output_options_spec clk)) as H6.
  pose proof (later_step_to get_misc_options_spec) as H7.
  pose proof (step_to_bind H1 (step_to_bind H2 (step_to_bind
                (H3 ltac:(discriminate) ltac:(discriminate))
                (step_to_bind (H4 ltac:(discriminate) ltac:(discriminate))
                   (step_to_bind (H5 ltac:(discriminate) ltac:(discriminate))
                      (step_to_bind
                         (H6 ltac:(discriminate) ltac:(discriminate))
                         (H7 ltac:(discriminate) ltac:(discriminate))))))))
    as Hall.
  intros inp b.
  destruct (Hall inp b) as (o & b' & inp' & Hrun & Hp & Hl & Ho).
  exists o, b', inp'. split; [exact Hrun|]. split; [exact Hp|].
  split; [exact Hl|].
  destruct Ho as [[-> Hq] | ->]; [left | now right].
  split; [reflexivity|].
  destruct Hq as (c1 & Hs1 & c2 & [Ht2 Hs2] & c3 & [Ht3 Hs3] & c4 & [Ht4 Hs4]
                  & c5 & [Ht5 Hs5] & c6 & [Ht6 Hs6] & [Ht7 Hs7]).
  split; congruence.
Qed.

Lemma bind_run {A B} (m : M A) (k : A -> M B) inp b o b1 inp1 :
  m inp b = (o, b1, inp1) ->
  bind m k inp b
  = match o with
    | Returned a => k a inp1 b1
    | Raised e => (Raised e, b1, inp1)
    | Pending => (Pending, b1, inp1)
    end.
Proof. intros H. unfold bind. now rewrite H. Qed.

(** X12: an interactive build, with a history file that can be written.
    Its seven steps either meet the end of the input or return. In the
    first case the build ends there with [EOFError] and nothing is
    stored. In the second case the command rendered from the parts of the
    steps enters the menu and exactly one entry is appended before it:
    the command of the entry is that rendering, its target is the target
    of these parts, and neither the target nor the scan type is empty. *)
Theorem built_command_is_stored_with_its_target :
  forall (clk : Clock) (fuel : nat) (inp : list string) (b : Builder),
    history_writable b = true ->
    let steps := interactive_steps clk inp (with_parts empty_parts b) in
    let r := build_new_command clk fuel inp b in
    (outcome_of steps = Returned tt \/ outcome_of steps = Raised EOFError)
    /\ (outcome_of steps = Raised EOFError ->
        r = (Raised EOFError, builder_of steps, rest_of steps)
        /\ history_file (builder_of r) = history_file b
        /\ effects (builder_of r) = effects b)
    /\ (outcome_of steps = Returned tt ->
        let cp := command_parts (builder_of steps) in
        let e := Entry (isoformat clk (ticks (builder_of steps)))
                       (build_command cp) (target cp) in
        let h := append_entry (load_history (history_file b)) e in
        r = process_built_command clk fuel (build_command cp)
              (rest_of steps) (builder_of steps)
        /\ history_file (builder_of r) = Stored h
        /\ (exists log,
              effects (builder_of r) = effects b ++ HistoryWritten h :: log
              /\ Forall quiet log)
        /\ command_parts (builder_of r) = cp
        /\ truthy (target cp) = true
        /\ truthy (scan_type cp) = true).
Proof.
  intros clk fuel inp b Hw steps r.
  destruct (interactive_steps_to clk inp (with_parts empty_parts b))
    as (o & b7 & inp7 & Hrun & (Hf & Hst & _ & _ & He) & _ & Ho).
  simpl in Hf, Hst, He.
  assert (Hr : r = match o with
                   | Returned _ =>
                       bind call_build_command
                            (process_built_command clk fuel) inp7 b7
                   | Raised e => (Raised e, b7, inp7)
                   | Pending => (Pending, b7, inp7)
                   end).
  { subst r. rewrite build_new_command_steps.
    unfold bind at 1. now rewrite Hrun. }
  subst steps. rewrite Hrun in *.
  unfold outcome_of, builder_of, rest_of in *. cbn [fst snd] in *.
  split; [destruct Ho as [[-> _] | ->]; auto|].
  split.
  - intros Heq. subst o. rewrite Hr. cbn [fst snd].
    repeat split; assumption.
  - intros Heq. subst o.
    destruct Ho as [[_ [Hscan Htarget]] | Habs]; [|discriminate].
    set (cp := command_parts b7) in *.
    assert (Hw7 : history_writable b7 = true).
    { unfold history_writable in *. now rewrite Hst. }
    assert (Hcall : bind call_build_command (process_built_command clk fuel)
                      inp7 b7
                    = process_built_command clk fuel (build_command cp)
                        inp7 b7) by reflexivity.
    rewrite Hcall in Hr.
    assert (Hmenu : process_built_command clk fuel (build_command cp) inp7 b7
                    = options_menu clk fuel (build_command cp) inp7
                        (builder_of (save_command_history clk
                                       (build_command cp) [] b7))).
    { unfold process_built_command, bind.
      now rewrite save_command_history_returns, save_command_history_ok. }
    destruct (saved_builder_facts clk (build_command cp) b7 Hw7)
      as (Hsf & Hsp & Hse).
    destruct (keeps_options_menu clk fuel (build_command cp) inp7
                (builder_of (save_command_history clk
                               (build_command cp) [] b7)))
      as (Hkf & _ & Hkp & log & Hke & Hq).
    split; [exact Hr|]. rewrite Hr, Hmenu.
    unfold builder_of in *.
    split; [rewrite Hkf, Hsf, Hf; reflexivity|].
    split.
    { exists log. split; [|exact Hq].
      rewrite Hke, Hse, Hf, He, <- app_assoc. reflexivity. }
    split; [rewrite Hkp, Hsp; reflexivity|].
    split; assumption.
Qed.

Lemma built_command_is_stored_with_its_target_witness :
  let b := with_parts (set_target "192.168.1.9" empty_parts)
             (new_builder (Stored (sample_history 2)) true true) in
  let inp := ["3"; "10.0.0.1"; "2"; ""; ""; ""; ""; "5"] in
  let steps := interactive_steps sample_clock inp (with_parts empty_parts b) in
  let r := build_new_command sample_clock 5 inp b in
  history_writable b = true
  /\ outcome_of steps = Returned tt
  /\ history_file (builder_of r)
     = Stored (append_entry (load_history (history_file b))
                 (Entry (isoformat sample_clock (ticks (builder_of steps)))
                        (build_command (command_parts (builder_of steps)))
                        (target (command_parts (builder_of steps)))))
  /\ truthy (target (command_parts (builder_of steps))) = true.
Proof.
  intros b inp steps r.
  destruct (@built_command_is_stored_with_its_target sample_clock 5 inp b
              eq_refl) as (_ & _ & Hreturned).
  destruct (Hreturned eq_refl) as (_ & Hfile & _ & _ & Htarget & _).
  repeat split; assumption.
Defined.

Example built_command_entry :
  let b := with_parts (set_target "192.168.1.9" empty_parts)
             (new_builder (Stored (sample_history 2)) true true) in
  let b' := builder_of (build_new_command sample_clock 5
                          ["3"; "10.0.0.1"; "2"; ""; ""; ""; ""; "5"] b) in
  map (fun e => (command e, entry_target e)) (load_history (history_file b'))
  = [ ("nmap -sn 10.0.0.0", ""); ("nmap -sn 10.0.0.1", "");
      ("nmap -sU -F 10.0.0.1", "10.0.0.1") ]
  /\ outcome_of (build_new_command sample_clock 5 ["3"; "10.0.0.1"; "2"] b)
     = Raised EOFError
  /\ history_file (builder_of (build_new_command sample_clock 5
                                 ["3"; "10.0.0.1"; "2"] b))
     = history_file b.
Proof. repeat split. Qed.



Example unwritable_history_menu :
  let b := new_builder Corrupt false true in
  let r := process_built_command sample_clock 5 "nmap -F h"
             ["1"; "y"; ""; "5"; "x"] b in
  r = (Returned tt, emit (Executed ["nmap"; "-F"; "h"]) (tick b), ["x"]).
Proof. reflexivity. Qed.

(** ** Whole sessions *)

Lemma history_step_refl b : history_step b b.
Proof. split; [reflexivity|]. split; [reflexivity | now left]. Qed.

Lemma history_step_trans b1 b2 b3 :
  history_step b1 b2 -> history_step b2 b3 -> history_step b1 b3.
Proof.
  intros (Hs1 & Hc1 & Hf1) (Hs2 & Hc2 & Hf2).
  split; [congruence|]. split; [congruence|].
  destruct Hf2 as [Hsame | Hnew]; [|now right].
  rewrite Hsame. exact Hf1.
Qed.

Lemma history_step_same_file b b' :
  history_file b' = history_file b ->
  storage b' = storage b ->
  clipboard b' = clipboard b ->
  history_step b b'.
Proof. intros Hf Hs Hc. split; [exact Hs|]. split; [exact Hc | now left]. Qed.

Lemma session_exn_back b b' e :
  history_step b b' -> session_exn b' e -> session_exn b e.
Proof.
  intros (Hs & Hc & _) He. unfold session_exn in *.
  rewrite <- Hs, <- Hc. exact He.
Qed.

Lemma tame_quiet {A} (m : M A) :
  (forall inp b, exists a b',
      m inp b = (Returned a, b', inp)
      /\ history_step b b') ->
  tame m.
Proof.
  intros H inp b. destruct (H inp b) as (a & b' & Hrun & Hstep).
  rewrite Hrun. split; [now exists []|]. split; [discriminate | exact Hstep].
Qed.

Lemma tame_ret {A} (a : A) : tame (ret a).
Proof.
  apply tame_quiet. intros inp b. exists a, b.
  split; [reflexivity | apply history_step_refl].
Qed.

Lemma tame_pending {A} : tame (@pending A).
Proof.
  intros inp b. split; [now exists []|]. split; [discriminate|].
  apply history_step_refl.
Qed.

Lemma tame_raise {A} (e : exn) :
  (forall b, session_exn b e) -> tame (@raise A e).
Proof.
  intros He inp b. split; [now exists []|]. split.
  - intros e' H. injection H as <-. apply He.
  - apply history_step_refl.
Qed.

Lemma tame_input : tame input.
Proof.
  intros [|line rest] b.
  - split; [now exists []|]. split; [|apply history_step_refl].
    intros e H. injection H as <-. now left.
  - split; [now exists [line]|]. split; [discriminate|].
    apply history_step_refl.
Qed.

Lemma tame_now : tame now.
Proof.
  apply tame_quiet. intros inp b. exists (ticks b), (tick b).
  split; [reflexivity | now apply history_step_same_file].
Qed.

Lemma tame_perform (e : Effect) : tame (perform e).
Proof.
  apply tame_quiet. intros inp b. exists tt, (emit e b).
  split; [reflexivity | now apply history_step_same_file].
Qed.

Lemma tame_get_parts : tame get_parts.
Proof.
  apply tame_quiet. intros inp b. exists (command_parts b), b.
  split; [reflexivity | apply history_step_refl].
Qed.

Lemma tame_update_parts f : tame (update_parts f).
Proof.
  apply tame_quiet. intros inp b.
  exists tt, (with_parts (f (command_parts b)) b).
  split; [reflexivity | now apply history_step_same_file].
Qed.

Lemma tame_bind {A B} (m : M A) (k : A -> M B) :
  tame m -> (forall a, tame (k a)) -> tame (bind m k).
Proof.
  intros Hm Hk inp b. destruct (Hm inp b) as ([t1 Hl] & He & Hh). unfold bind.
  destruct (m inp b) as [[[a| e |] b1] inp1];
    unfold outcome_of, rest_of, builder_of in *; simpl in *.
  - destruct (Hk a inp1 b1) as ([t2 Hl'] & He' & Hh').
    unfold outcome_of, rest_of, builder_of in *.
    split; [exists (t1 ++ t2); now rewrite <- app_assoc, <- Hl'|].
    split; [|eapply history_step_trans; eassumption].
    intros e H. eapply session_exn_back; [exact Hh | now apply He'].
  - split; [now exists t1|]. split; [|exact Hh].
    intros e' H. injection H as <-. now apply He.
  - split; [now exists t1|]. split; [discriminate | exact Hh].
Qed.

Lemma tame_step k (m : M unit) : step_spec k m -> tame m.
Proof.
  intros Hspec inp b.
  destruct (Hspec inp b) as ((Hf & Hs & Hc & _) & _ & Hl & Ho).
  split; [exact Hl|]. split; [|now apply history_step_same_file].
  intros e He. destruct Ho as [Ho | Ho]; rewrite Ho in He;
    [discriminate | injection He as <-; now left].
Qed.

Section Sessions.

Variable clk : Clock.

Lemma tame_save_command_history command :
  tame (save_command_history clk command).
Proof.
  intros inp b. unfold save_command_history, history_writable.
  cbn [storage tick].
  destruct (storage b) eqn:Hs; (split; [now exists []|]).
  - split; [discriminate|]. split; [reflexivity|]. split; [reflexivity|].
    right. eexists. split; [reflexivity|].
    unfold append_entry. rewrite last_slice_length, length_app.
    cbn [length]. lia.
  - split; [discriminate|]. now apply history_step_same_file.
  - split; [|apply history_step_refl].
    intros e H. injection H as <-. do 4 right. left. now split.
Qed.

Lemma tame_show_command_history : tame show_command_history.
Proof.
  intros inp b.
  pose proof (show_command_history_builder inp b) as Hb.
  split; [|split; [|rewrite Hb; apply history_step_refl]].
  - unfold show_command_history.
    destruct (history_file b) as [| |[|h0 hs]]; try (now exists []).
    destruct inp as [|line rest]; [now exists []|].
    rewrite bind_input_cons. cbv zeta.
    repeat match goal with
           | |- context [if ?c then _ else _] => destruct c
           | |- context [match ?c with Some _ => _ | None => _ end] =>
               destruct c
           end; now exists [line].
  - intros e. unfold show_command_history.
    destruct (history_file b) as [| |[|h0 hs]]; try discriminate.
    destruct inp as [|line rest];
      [intros H; injection H as <-; now left|].
    rewrite bind_input_cons. cbv zeta.
    repeat match goal with
           | |- context [if ?c then _ else _] => destruct c
           | |- context [match ?c with Some _ => _ | None => _ end] =>
               destruct c
           end; try discriminate;
      intros H; injection H as <-; unfold session_exn; tauto.
Qed.

Lemma tame_execute_command command : tame (execute_command command).
Proof.
  unfold execute_command. apply tame_bind; [apply tame_input|].
  intros line. cbv zeta.
  destruct (says_yes _); [apply tame_perform | apply tame_ret].
Qed.

Lemma tame_save_as_script command : tame (save_as_script clk command).
Proof.
  unfold save_as_script. apply tame_bind; [apply tame_input|].
  intros line. cbv zeta. destruct (says_yes _); [|apply tame_ret].
  apply tame_bind; [apply tame_now|]. intros t. cbv zeta.
  apply tame_bind; [apply tame_input|]. intros line2. cbv zeta.
  apply tame_bind; [apply tame_now|]. intros t2. cbv zeta.
  intros inp b. destruct (scripts_writable b);
    [apply tame_perform | apply tame_ret].
Qed.

Lemma tame_copy_to_clipboard command : tame (copy_to_clipboard command).
Proof.
  intros inp b. unfold copy_to_clipboard.
  destruct (clipboard b) eqn:Hc;
    [apply tame_ret | apply tame_perform |].
  split; [now exists []|]. split; [|apply history_step_refl].
  intros e H. injection H as <-. do 5 right. now split.
Qed.

Lemma tame_options_menu (fuel : nat) :
  forall command, tame (options_menu clk fuel command).
Proof.
  induction fuel as [|fuel IH]; intros command; cbn [options_menu];
    [apply tame_pending|].
  apply tame_bind; [apply tame_input|]. intros line. cbv zeta.
  assert (Hnext : forall c, tame (input ;;; options_menu clk fuel c))
    by (intros c; apply tame_bind; [apply tame_input | intros _; apply IH]).
  destruct (String.eqb (strip line) "1");
    [apply tame_bind; [apply tame_execute_command | intros _; apply Hnext]|].
  destruct (String.eqb (strip line) "2");
    [apply tame_bind; [apply tame_save_as_script | intros _; apply Hnext]|].
  destruct (String.eqb (strip line) "3");
    [apply tame_bind; [apply tame_copy_to_clipboard | intros _; apply Hnext]|].
  destruct (String.eqb (strip line) "4").
  { apply tame_bind; [apply tame_input|]. intros line2. cbv zeta.
    destruct (truthy (strip line2)); apply IH. }
  destruct (String.eqb (strip line) "5"); [apply tame_ret | apply Hnext].
Qed.

Lemma tame_process_built_command fuel command :
  tame (process_built_command clk fuel command).
Proof.
  unfold process_built_command.
  apply tame_bind; [apply tame_save_command_history|].
  intros _. apply tame_options_menu.
Qed.

Lemma tame_build_new_command fuel : tame (build_new_command clk fuel).
Proof.
  unfold build_new_command.
  apply tame_bind; [apply tame_update_parts | intros _].
  apply tame_bind; [apply (tame_step get_scan_type_spec) | intros _].
  apply tame_bind; [apply (tame_step get_target_spec) | intros _].
  apply tame_bind; [apply (tame_step get_port_specification_spec) | intros _].
  apply tame_bind; [apply (tame_step get_timing_template_spec) | intros _].
  apply tame_bind; [apply (tame_step get_detection_options_spec) | intros _].
  apply tame_bind; [apply (tame_step (get_output_options_spec clk)) | intros _].
  apply tame_bind; [apply (tame_step get_misc_options_spec) | intros _].
  apply tame_bind.
  - unfold call_build_command.
    apply tame_bind; [apply tame_get_parts | intros cp; apply tame_ret].
  - intros command. apply tame_process_built_command.
Qed.

Lemma tame_quick_templates fuel : tame (quick_templates clk fuel).
Proof.
  unfold quick_templates. apply tame_bind; [apply tame_input|].
  intros line. cbv zeta. apply tame_bind.
  - destruct (lookup (strip line) templates) as [tpl|]; [|apply tame_ret].
    apply tame_bind; [apply tame_input|]. intros line2. cbv zeta.
    destruct (truthy (strip line2));
      [apply tame_process_built_command | apply tame_ret].
  - intros _. destruct (truthy (strip line)); [|apply tame_ret].
    apply tame_bind; [apply tame_input | intros _; apply tame_ret].
Qed.

Lemma tame_main_menu_choice fuel choice :
  tame (main_menu_choice clk fuel choice).
Proof.
  unfold main_menu_choice.
  destruct (String.eqb choice "1"); [apply tame_build_new_command|].
  destruct (String.eqb choice "2").
  { apply tame_bind; [apply tame_show_command_history|].
    intros [c|]; [|apply tame_ret].
    destruct (truthy c); [apply tame_process_built_command | apply tame_ret]. }
  destruct (String.eqb choice "3"); [apply tame_quick_templates|].
  destruct (String.eqb choice "4").
  { unfold show_help.
    apply tame_bind; [apply tame_input | intros _; apply tame_ret]. }
  destruct (String.eqb choice "5").
  { apply tame_raise. intros b. unfold session_exn. tauto. }
  apply tame_bind; [apply tame_input | intros _; apply tame_ret].
Qed.

Lemma tame_main_menu (fuel : nat) : tame (main_menu clk fuel).
Proof.
  induction fuel as [|fuel IH]; cbn [main_menu]; [apply tame_pending|].
  apply tame_bind; [apply tame_input|]. intros line.
  apply tame_bind; [apply tame_main_menu_choice | intros _; exact IH].
Qed.

End Sessions.







Section SessionEnds.

Variable clk : Clock.







End SessionEnds.



(** The ways a session ends: by choice 5, by the index of a short history,
    at the end of the input, and, where the world is as it takes, by the
    directory that cannot be made and by the clipboard that fails. *)
Example session_endings :
  let b := new_builder (Stored (sample_history 4)) true true in
  let no_directory :=
    MkBuilder empty_parts Missing NoDirectory ClipboardWorks true 0 [] in
  let no_copy :=
    MkBuilder empty_parts Missing Writable ClipboardFails true 0 [] in
  map (fun lines => outcome_of (main_menu sample_clock 6 lines b))
      [ ["5"]; ["2"; "1"]; ["4"; ""; "7"; ""]; ["3"; ""; "5"] ]
  = [ Raised (SystemExit 0); Raised IndexError; Raised EOFError;
      Raised (SystemExit 0) ]
  /\ outcome_of (main_menu sample_clock 6 ["3"; "1"; "h"; "5"] no_directory)
     = Raised OSError
  /\ outcome_of (main_menu sample_clock 6 ["3"; "1"; "h"; "3"; ""; "5"] no_copy)
     = Raised PyperclipException
  /\ outcome_of (main_menu sample_clock 6 ["3"; "1"; "h"; "3"; ""; "5"; ""; "5"]
                   (new_builder Missing true false))
     = Raised (SystemExit 0).
Proof. repeat split. Qed.

(** X15: whatever is typed in a session, the history file afterwards is
    the file the session started with, or a list of at least one and at
    most 50 entries; and the lines the session leaves are exactly what
    follows the lines it took from the front of the input. *)
Theorem session_history_bounded :
  forall (clk : Clock) (fuel : nat) (inp : list string) (b : Builder),
    let r := main_menu clk fuel inp b in
    (history_file (builder_of r) = history_file b
     \/ exists h, history_file (builder_of r) = Stored h
                  /\ 1 <= length h <= 50)
    /\ exists taken, inp = taken ++ rest_of r.
Proof.
  intros clk fuel inp b r.
  destruct (tame_main_menu clk fuel inp b) as (Hl & _ & _ & _ & Hf).
  split; [exact Hf | exact Hl].
Qed.

(** A session that starts with 49 entries and builds three commands ends
    with the newest 50; one that only looks at the help leaves the file
    as it was. *)
Example session_history_examples :
  let b := new_builder (Stored (sample_history 49)) true true in
  let build := ["1"; "1"; "h"; "1"; ""; ""; ""; ""; "5"] in
  let r := main_menu sample_clock 40 (build ++ build ++ build ++ ["5"; "x"]) b in
  length (load_history (history_file (builder_of r))) = 50
  /\ hd_error (load_history (history_file (builder_of r)))
     = Some (sample_entry 2)
  /\ rest_of r = ["x"]
  /\ history_file (builder_of (main_menu sample_clock 40 ["4"; ""; "5"] b))
     = history_file b.
Proof. vm_compute. repeat split. Qed.
